(** * The backend core of llm-workflow-engine: override resolution,
      template execution and conversation reset.

    Shallow embedding of [lwe/core/backend.py] (class [Backend]).  Python
    dictionaries are finite maps, the backend instance is a record of its
    attributes, and every method is a computation in a small state-and-
    exception monad over the instance together with the log of calls made to
    collaborators (template manager, provider backend, [util]). *)

From stdpp Require Import gmap strings list fin_maps.
From Stdlib Require Import ZArith.

Local Open Scope string_scope.

(** ** Python values *)

(** The dynamic values that flow through the pipeline.  [VObj] stands for
    an opaque object (an LLM handle, a callback, a manager). *)
#[warnings="-register-all"]
Inductive pyval : Type :=
| VNone
| VBool (b : bool)
| VInt (z : Z)
| VStr (s : string)
| VTuple (items : list pyval)
| VDict (entries : gmap string pyval)
| VObj (handle : positive).

Abbreviation dict := (gmap string pyval).

(** Python truthiness, as used by [if x], [not x] and [x or y]. *)
Definition truthy (v : pyval) : bool :=
  match v with
  | VNone => false
  | VBool b => b
  | VInt z => negb (Z.eqb z 0)
  | VStr s => negb (String.eqb s "")
  | VTuple items => negb (Nat.eqb (length items) 0)
  | VDict entries => negb (Nat.eqb (size entries) 0)
  | VObj _ => true
  end.

(** [d or {}] for an optional dictionary argument (default [None]). *)
Definition or_empty (d : option dict) : dict :=
  match d with
  | Some entries => if truthy (VDict entries) then entries else ∅
  | None => ∅
  end.

(** Python exceptions the modelled code can raise by itself. *)
Inductive exn : Type :=
| TypeError
| KeyError
| ValueError.

(** [needle in haystack] on strings: substring search. *)
Fixpoint is_substring (needle hay : string) : bool :=
  if String.prefix needle hay then true
  else match hay with
       | EmptyString => false
       | String _ rest => is_substring needle rest
       end.

Definition is_str (key : string) (v : pyval) : bool :=
  match v with
  | VStr s => String.eqb key s
  | _ => false
  end.

(** [key in v] for a string [key]: key membership on a dictionary, element
    membership on a tuple, substring search on a string, [TypeError] on
    anything that is not a container. *)
Definition py_contains (key : string) (v : pyval) : exn + bool :=
  match v with
  | VDict entries => inr (if entries !! key is Some _ then true else false)
  | VTuple items => inr (existsb (is_str key) items)
  | VStr s => inr (is_substring key s)
  | _ => inl TypeError
  end.

(** [v[key]] for a string [key]: only dictionaries accept string
    subscripts. *)
Definition py_getitem (v : pyval) (key : string) : exn + pyval :=
  match v with
  | VDict entries =>
      match entries !! key with
      | Some x => inr x
      | None => inl KeyError
      end
  | _ => inl TypeError
  end.

(** ** The backend instance and its collaborators *)

(** The instance attributes of [Backend]: those set by [__init__] and
    [initialize_backend], [model] and [available_models] (set by
    [set_model] and [set_available_models]), and [active_preset_name],
    which the concrete backend maintains and the resolver reads. *)
Record Backend : Type := mkBackend {
  conversation_id : pyval;
  conversation_title : pyval;
  conversation_title_set : pyval;
  stream : pyval;
  provider_name : pyval;
  provider : pyval;
  message_clipboard : pyval;
  streaming : pyval;
  model : pyval;
  available_models : pyval;
  active_preset_name : pyval
}.

(** The uniform result triple [(success, payload, user_message)]. *)
Definition result : Type := bool * pyval * string.

(** Calls that leave the base class, in the order they are made. *)
Inductive call : Type :=
| CallGetTemplateVariablesSubstitutions (template_name : string)
| CallBuildMessageFromTemplate (template_name : string) (substitutions : dict)
| CallMergeDicts (dict1 dict2 : dict)
| CallActivatePreset (preset_name : pyval)
| CallSetOverrideLlm (preset_name preset_overrides : pyval)
| CallAsk (input : pyval) (kwargs : dict).

(** What the base class relies on without defining it: the abstract
    methods a concrete backend implements ([ask], [ask_stream],
    [set_override_llm]; the conversation bookkeeping methods are never called
    by the code modelled here), the methods the concrete backend adds
    ([_ask], [activate_preset]), the two template manager methods, and
    Python's [str] used in the f-strings.  Keyword arguments are passed as a
    dictionary. *)
Class Collaborators : Type := {
  ask : pyval → dict → Backend → result * Backend;
  ask_stream : pyval → dict → Backend → result * Backend;
  set_override_llm : pyval → pyval → Backend → result * Backend;
  _ask : pyval → dict → Backend → result * Backend;
  activate_preset : pyval → Backend → Backend;
  get_template_variables_substitutions : string → result;
  build_message_from_template : string → dict → pyval * dict;
  py_str : pyval → string
}.

(** ** State and exceptions *)

Record World : Type := mkWorld {
  self : Backend;
  calls : list call
}.

Definition M (A : Type) : Type := World → (exn + A) * World.

#[global] Instance M_ret : MRet M := λ A (x : A) w, (inr x, w).

#[global] Instance M_bind : MBind M := λ A B (k : A → M B) (m : M A) w,
  match m w with
  | (inr x, w') => k x w'
  | (inl e, w') => (inl e, w')
  end.

(** Lift a pure computation that may raise. *)
Definition lift {A : Type} (r : exn + A) : M A := λ w, (r, w).

(** Read an attribute of [self]. *)
Definition attr {A : Type} (field : Backend → A) : M A :=
  λ w, (inr (field (self w)), w).

(** Replace [self]. *)
Definition update (f : Backend → Backend) : M unit :=
  λ w, (inr (), mkWorld (f (self w)) (calls w)).

(** Record a call to a collaborator. *)
Definition record (c : call) : M unit :=
  λ w, (inr (), mkWorld (self w) (calls w ++ [c])).

(** Call a method of the concrete backend: it runs on [self]. *)
Definition invoke {A : Type} (c : call) (f : Backend → A * Backend) : M A :=
  λ w, let '(x, b) := f (self w) in (inr x, mkWorld b (calls w ++ [c])).

(** Tuple unpacking [a, b = v] and [a, b, c = v].  Exact on tuples (a wrong
    length raises [ValueError]) and on values that cannot be iterated
    ([TypeError]).  Python would also iterate a string or a dictionary; the
    payloads unpacked here are tuples built by the pipeline or by the template
    manager, and for a string or a dictionary the model raises [TypeError]
    instead.  No statement below is about such a payload. *)
Definition unpack2 (v : pyval) : exn + (pyval * pyval) :=
  match v with
  | VTuple [a; b] => inr (a, b)
  | VTuple _ => inl ValueError
  | _ => inl TypeError
  end.

Definition unpack3 (v : pyval) : exn + (pyval * pyval * pyval) :=
  match v with
  | VTuple [a; b; c] => inr (a, b, c)
  | VTuple _ => inl ValueError
  | _ => inl TypeError
  end.

(** Modelled from the spec: [util.merge_dicts] lives in [lwe/core/util.py],
    which is not part of the sources at hand.  The spec says that the second
    mapping is merged over the first: keys of the second override keys of the
    same name in the first, unrelated keys from both survive.  The callers
    discard the return value and go on with their first argument, so the
    merge updates it in place; here the updated first argument is returned. *)
Definition merge_dicts (dict1 dict2 : dict) : dict := dict2 ∪ dict1.

(** ** Setters for the attributes the base class assigns *)

Definition set_conversation_id (v : pyval) (b : Backend) : Backend :=
  mkBackend v (conversation_title b) (conversation_title_set b) (stream b)
    (provider_name b) (provider b) (message_clipboard b) (streaming b)
    (model b) (available_models b) (active_preset_name b).

Definition set_conversation_title (v : pyval) (b : Backend) : Backend :=
  mkBackend (conversation_id b) v (conversation_title_set b) (stream b)
    (provider_name b) (provider b) (message_clipboard b) (streaming b)
    (model b) (available_models b) (active_preset_name b).

Definition set_conversation_title_set (v : pyval) (b : Backend) : Backend :=
  mkBackend (conversation_id b) (conversation_title b) v (stream b)
    (provider_name b) (provider b) (message_clipboard b) (streaming b)
    (model b) (available_models b) (active_preset_name b).

Definition set_message_clipboard (v : pyval) (b : Backend) : Backend :=
  mkBackend (conversation_id b) (conversation_title b)
    (conversation_title_set b) (stream b) (provider_name b) (provider b) v
    (streaming b) (model b) (available_models b) (active_preset_name b).

Definition set_active_preset_name (v : pyval) (b : Backend) : Backend :=
  mkBackend (conversation_id b) (conversation_title b)
    (conversation_title_set b) (stream b) (provider_name b) (provider b)
    (message_clipboard b) (streaming b) (model b) (available_models b) v.

(** ** The methods of [Backend] *)

(** Logging ([self.log.debug], [self.log.info]) is not modelled: it neither
    changes the instance nor influences a result. *)

(** [new_conversation] *)
Definition new_conversation : M unit :=
  update (set_conversation_id VNone) ;;
  update (set_conversation_title VNone) ;;
  update (set_conversation_title_set VNone) ;;
  update (set_message_clipboard VNone).

Section Methods.
Context `{Collaborators}.

(** [overrides['request_overrides']] *)
Definition request_overrides_of (overrides : dict) : exn + pyval :=
  py_getitem (VDict overrides) "request_overrides".

(** [key in overrides['request_overrides']] *)
Definition in_request_overrides (key : string) (overrides : dict) : M bool :=
  ro ← lift (request_overrides_of overrides);
  lift (py_contains key ro).

(** [overrides['request_overrides'][key]] *)
Definition request_override (key : string) (overrides : dict) : M pyval :=
  ro ← lift (request_overrides_of overrides);
  lift (py_getitem ro key).

(** The guard of line 112:
    ['request_overrides' in overrides and ('preset' in ... or
    'preset_overrides' in ...)], with Python's short-circuit evaluation. *)
Definition has_preset_configuration (overrides : dict) : M bool :=
  has_request_overrides ← lift (py_contains "request_overrides" (VDict overrides));
  if has_request_overrides : bool then
    has_preset ← in_request_overrides "preset" overrides;
    if has_preset : bool then mret true
    else in_request_overrides "preset_overrides" overrides
  else mret false.

(** The guard of line 116:
    ['activate_preset' in ... and overrides[...]['activate_preset']]. *)
Definition wants_activation (overrides : dict) : M bool :=
  has_flag ← in_request_overrides "activate_preset" overrides;
  if has_flag : bool then
    flag ← request_override "activate_preset" overrides;
    mret (truthy flag)
  else mret false.

(** [extract_preset_configuration_from_overrides] *)
Definition extract_preset_configuration_from_overrides
    (overrides : dict) : M result :=
  let preset_name := VNone in
  let preset_overrides := VNone in
  guard ← has_preset_configuration overrides;
  if guard : bool then
    has_preset ← in_request_overrides "preset" overrides;
    preset_name ←
      (if has_preset : bool then
         preset_name ← request_override "preset" overrides;
         activate ← wants_activation overrides;
         (if activate : bool then
            invoke (CallActivatePreset preset_name)
                   (λ b, ((), activate_preset preset_name b))
          else mret ()) ;;
         mret preset_name
       else attr active_preset_name);
    if negb (truthy preset_name) then
      mret (false, VTuple [preset_name; preset_overrides; VDict overrides],
            "No active preset to override")
    else
      has_overrides ← in_request_overrides "preset_overrides" overrides;
      preset_overrides ←
        (if has_overrides : bool then
           request_override "preset_overrides" overrides
         else mret preset_overrides);
      mret (true, VTuple [preset_name; preset_overrides; VDict overrides],
            "Extracted preset configuration from request overrides: "
              ++ py_str (VDict overrides))
  else
    mret (true, VTuple [preset_name; preset_overrides; VDict overrides],
          "Extracted preset configuration from request overrides: "
            ++ py_str (VDict overrides)).

(** [run_template_setup] *)
Definition run_template_setup (template_name : string)
    (substitutions : option dict) : M result :=
  let substitutions := or_empty substitutions in
  record (CallBuildMessageFromTemplate template_name substitutions) ;;
  let '(message, overrides) :=
    build_message_from_template template_name substitutions in
  let preset_name := VNone in
  '(success, response, user_message) ←
    extract_preset_configuration_from_overrides overrides;
  if negb success then
    mret (success, VTuple [message; preset_name; VDict overrides], user_message)
  else
    '(preset_name, preset_overrides, overrides) ← lift (unpack3 response);
    if truthy preset_name then
      '(success, llm, user_message) ←
        invoke (CallSetOverrideLlm preset_name preset_overrides)
               (set_override_llm preset_name preset_overrides);
      if success : bool then
        mret (true, VTuple [message; overrides],
              "Set up of template run complete: " ++ template_name)
      else mret (success, llm, user_message)
    else
      mret (true, VTuple [message; overrides],
            "Set up of template run complete: " ++ template_name).

(** [run_template_compiled]: [self._ask(message, **overrides)] *)
Definition run_template_compiled (message : pyval)
    (overrides : option dict) : M result :=
  let overrides := or_empty overrides in
  invoke (CallAsk message overrides) (_ask message overrides).

(** [util.merge_dicts(dict1, dict2)] as the pipeline calls it: [dict1]
    comes out of a payload, [dict2] is a caller's dictionary. *)
Definition call_merge_dicts (dict1 : pyval) (dict2 : dict) : M dict :=
  match dict1 with
  | VDict entries =>
      record (CallMergeDicts entries dict2) ;;
      mret (merge_dicts entries dict2)
  | _ => lift (inl TypeError)
  end.

(** [run_template] *)
Definition run_template (template_name : string)
    (template_vars overrides : option dict) : M result :=
  let template_vars := or_empty template_vars in
  let overrides := or_empty overrides in
  record (CallGetTemplateVariablesSubstitutions template_name) ;;
  let '(success, response, user_message) :=
    get_template_variables_substitutions template_name in
  if negb success then mret (success, response, user_message)
  else
    '(_template, _variables, substitutions) ← lift (unpack3 response);
    substitutions ← call_merge_dicts substitutions template_vars;
    '(success, response, user_message) ←
      run_template_setup template_name (Some substitutions);
    if negb success then mret (success, response, user_message)
    else
      '(message, template_overrides) ← lift (unpack2 response);
      template_overrides ← call_merge_dicts template_overrides overrides;
      run_template_compiled message (Some template_overrides).

End Methods.

(** ** Vocabulary for the statements *)

Section Vocabulary.
Context `{Collaborators}.

(** The message of a successful resolution. *)
Definition extracted (overrides : dict) : string :=
  "Extracted preset configuration from request overrides: "
    ++ py_str (VDict overrides).

(** The world after [self.activate_preset(preset_name)]. *)
Definition activated (preset_name : pyval) (w : World) : World :=
  mkWorld (activate_preset preset_name (self w))
          (calls w ++ [CallActivatePreset preset_name]).

(** Whether a request mapping asks for activation. *)
Definition activation_flag (ro : dict) : bool :=
  match ro !! "activate_preset" with
  | Some flag => truthy flag
  | None => false
  end.

(** The request a backend receives when it is asked to override
    [preset_overrides] without naming a preset. *)
Definition overrides_only_request (preset_overrides : pyval) : dict :=
  {[ "request_overrides" := VDict {[ "preset_overrides" := preset_overrides ]} ]}.

(** The request that names a preset, with optional extra keys. *)
Definition preset_request (preset_name : pyval) (extra : dict) : dict :=
  {[ "request_overrides" := VDict (<["preset" := preset_name]> extra) ]}.

(** Resolution ended with the active preset as the resolved name and left
    the world alone. *)
Definition falls_back_to_active_preset (overrides : dict) (w : World) : Prop :=
  ∃ ok preset_overrides msg,
    extract_preset_configuration_from_overrides overrides w =
      (inr (ok, VTuple [active_preset_name (self w); preset_overrides;
                        VDict overrides], msg), w).

End Vocabulary.

(** The world after one more recorded call. *)
Definition logged (c : call) (w : World) : World :=
  mkWorld (self w) (calls w ++ [c]).

(** The world in which [run_template] starts the setup. *)
Definition before_setup (template_name : string) (substitutions : dict)
    (template_vars : option dict) (w : World) : World :=
  logged (CallMergeDicts substitutions (or_empty template_vars))
    (logged (CallGetTemplateVariablesSubstitutions template_name) w).

(** [w'] is [w] after the calls [cs], whatever happened to [self]. *)
Definition makes_calls (w w' : World) (cs : list call) : Prop :=
  calls w' = (calls w ++ cs)%list.

(** The calls of the merge and dispatch stages. *)
Definition is_merge_or_ask (c : call) : bool :=
  match c with
  | CallMergeDicts _ _ | CallAsk _ _ => true
  | _ => false
  end.

(** ** A concrete backend to run the model on *)

Module Sample.

(** A backend in the style of the API backend: [_ask] is its own method
    next to [ask], and presets "gpt4" and "turbo" exist.  Template "greet"
    greets its variable [name] and declares no overrides, template "tuned"
    declares ad-hoc preset overrides only, template "pinned" names a preset
    that does not exist, and there is no template "missing". *)
Definition known_preset (preset_name : pyval) : bool :=
  is_str "gpt4" preset_name || is_str "turbo" preset_name.

Definition tuned_overrides : dict :=
  {[ "request_overrides" :=
       VDict {[ "preset_overrides" := VDict {[ "temperature" := VInt 0 ]} ]} ]}.

Definition pinned_overrides : dict :=
  {[ "request_overrides" := VDict {[ "preset" := VStr "gone" ]} ]}.

Definition greeting (substitutions : dict) : pyval :=
  match substitutions !! "name" with
  | Some (VStr name) => VStr ("Hello, " ++ name)
  | _ => VStr "Hello"
  end.

#[export] Instance collaborators : Collaborators := {|
  ask := λ input _ b, ((true, input, "asked"), b);
  ask_stream := λ input _ b, ((true, input, "streamed"), b);
  set_override_llm := λ preset_name _ b,
    if known_preset preset_name then ((true, VObj 2, "preset loaded"), b)
    else ((false, VNone, "preset not found"), b);
  _ask := λ input _ b,
    ((true, input, "asked or streamed"), set_message_clipboard input b);
  activate_preset := set_active_preset_name;
  get_template_variables_substitutions := λ template_name,
    if String.eqb template_name "missing"
    then (false, VStr template_name, "template not found")
    else (true, VTuple [VObj 1; VTuple [VStr "name"]; VDict ∅], "template loaded");
  build_message_from_template := λ template_name substitutions,
    if String.eqb template_name "tuned" then (VStr "Hello", tuned_overrides)
    else if String.eqb template_name "pinned" then (VStr "Hello", pinned_overrides)
    else (greeting substitutions, ∅);
  py_str := λ _, "{...}"
|}.

(** A fresh backend: nothing set, no active preset. *)
Definition fresh : Backend :=
  mkBackend VNone VNone VNone (VBool false) VNone VNone VNone (VBool false)
    VNone VNone VNone.

(** A backend in the middle of a conversation with preset "gpt4" active. *)
Definition busy : Backend :=
  mkBackend (VInt 7) (VStr "Earth") (VBool true) (VBool false)
    (VStr "chat_openai") (VObj 3) (VStr "Blue, round, alive") (VBool true)
    (VStr "gpt-4") VNone (VStr "gpt4").

Definition start (b : Backend) : World := mkWorld b [].

End Sample.

(** ** Streaming cancellation *)

Definition set_streaming (v : pyval) (b : Backend) : Backend :=
  mkBackend (conversation_id b) (conversation_title b)
    (conversation_title_set b) (stream b) (provider_name b) (provider b)
    (message_clipboard b) v (model b) (available_models b)
    (active_preset_name b).

(** [terminate_stream]: the signal handler; both arguments are ignored. *)
Definition terminate_stream (_signal _frame : pyval) : M unit :=
  is_streaming ← attr streaming;
  if truthy is_streaming then update (set_streaming (VBool false))
  else mret ().

(** ** Further vocabulary *)

(** Values on which Python's [in] raises: [None], booleans, integers. *)
Definition is_scalar (v : pyval) : bool :=
  match v with
  | VNone | VBool _ | VInt _ => true
  | _ => false
  end.

(** A payload that carries no preset configuration: no [request_overrides]
    key, or a mapping there with neither [preset] nor [preset_overrides]. *)
Definition nothing_to_resolve (overrides : dict) : Prop :=
  overrides !! "request_overrides" = None
  ∨ (∃ ro, overrides !! "request_overrides" = Some (VDict ro)
           ∧ ro !! "preset" = None ∧ ro !! "preset_overrides" = None).

(** The message of a successful setup. *)
Definition setup_complete (template_name : string) : string :=
  "Set up of template run complete: " ++ template_name.

Definition is_ask (c : call) : bool :=
  match c with
  | CallAsk _ _ => true
  | _ => false
  end.

Section PipelineVocabulary.
Context `{Collaborators}.

(** The world in which [run_template] has finished its first three steps,
    or has given up on the way; the caller's overrides play no part in it. *)
Definition after_setup (template_name : string) (template_vars : option dict)
    (w : World) : World :=
  let fetched := logged (CallGetTemplateVariablesSubstitutions template_name) w in
  match get_template_variables_substitutions template_name with
  | (false, _, _) => fetched
  | (true, response, _) =>
      match unpack3 response with
      | inr (_, _, VDict substitutions) =>
          (run_template_setup template_name
             (Some (merge_dicts substitutions (or_empty template_vars)))
             (before_setup template_name substitutions template_vars w)).2
      | _ => fetched
      end
  end.

End PipelineVocabulary.

(** ** A second backend, with templates that go wrong *)

Module Faulty.

(** The sample backend with two more templates: "switch" names the unknown
    preset "gone" and asks for its activation, and the template manager
    answers for "broken" with a pair instead of a triple. *)
Definition switch_overrides : dict :=
  {[ "request_overrides" :=
       VDict {[ "preset" := VStr "gone"; "activate_preset" := VBool true ]} ]}.

#[export] Instance collaborators : Collaborators := {|
  ask := @ask Sample.collaborators;
  ask_stream := @ask_stream Sample.collaborators;
  set_override_llm := @set_override_llm Sample.collaborators;
  _ask := @_ask Sample.collaborators;
  activate_preset := @activate_preset Sample.collaborators;
  get_template_variables_substitutions := λ template_name,
    if String.eqb template_name "broken"
    then (true, VTuple [VObj 1; VDict ∅], "template loaded")
    else @get_template_variables_substitutions Sample.collaborators template_name;
  build_message_from_template := λ template_name substitutions,
    if String.eqb template_name "switch" then (VStr "Hello", switch_overrides)
    else @build_message_from_template Sample.collaborators template_name
           substitutions;
  py_str := @py_str Sample.collaborators
|}.

End Faulty.

(** * Properties *)

(** Unfold the monad, and the resolver down to lookups. *)
Ltac run_monad :=
  unfold record, invoke, lift, attr, mbind, mret, M_bind, M_ret.

Ltac run_resolver :=
  unfold extract_preset_configuration_from_overrides,
    has_preset_configuration, wants_activation, in_request_overrides,
    request_override, request_overrides_of, activated, extracted;
  run_monad; simpl.

(** ** Basic facts about values and dictionaries *)

Lemma or_empty_Some (d : dict) : or_empty (Some d) = d.
Proof.
  unfold or_empty, truthy.
  destruct (Nat.eqb_spec (size d) 0) as [Hsize | Hsize]; simpl.
  - symmetry. by apply map_size_empty_iff.
  - reflexivity.
Qed.

Lemma merge_dicts_lookup (dict1 dict2 : dict) (key : string) :
  merge_dicts dict1 dict2 !! key =
    match dict2 !! key with
    | Some v => Some v
    | None => dict1 !! key
    end.
Proof.
  unfold merge_dicts. rewrite lookup_union.
  destruct (dict2 !! key), (dict1 !! key); reflexivity.
Qed.

(** ** The resolver, case by case *)

Section Resolver.
Context `{Collaborators}.

Lemma resolver_no_request_overrides (overrides : dict) (w : World) :
  overrides !! "request_overrides" = None →
  extract_preset_configuration_from_overrides overrides w =
    (inr (true, VTuple [VNone; VNone; VDict overrides], extracted overrides), w).
Proof. intros Hro. run_resolver. rewrite Hro. reflexivity. Qed.

Lemma resolver_with_explicit_preset (overrides ro : dict) (p : pyval) (w : World) :
  overrides !! "request_overrides" = Some (VDict ro) →
  ro !! "preset" = Some p →
  extract_preset_configuration_from_overrides overrides w =
    let w' := if activation_flag ro then activated p w else w in
    if truthy p then
      (inr (true,
            VTuple [p; default VNone (ro !! "preset_overrides"); VDict overrides],
            extracted overrides), w')
    else
      (inr (false, VTuple [p; VNone; VDict overrides],
            "No active preset to override"), w').
Proof.
  intros Hro Hp. run_resolver. unfold activation_flag. rewrite Hro. simpl. rewrite Hp. simpl.
  destruct (ro !! "activate_preset") as [flag|]; simpl.
  - destruct (truthy flag); simpl;
      destruct (truthy p); simpl; try reflexivity;
      destruct (ro !! "preset_overrides"); reflexivity.
  - destruct (truthy p); simpl; try reflexivity;
      destruct (ro !! "preset_overrides"); reflexivity.
Qed.

Lemma resolver_preset_overrides_only (overrides ro : dict) (po : pyval) (w : World) :
  overrides !! "request_overrides" = Some (VDict ro) →
  ro !! "preset" = None →
  ro !! "preset_overrides" = Some po →
  extract_preset_configuration_from_overrides overrides w =
    let active := active_preset_name (self w) in
    if truthy active then
      (inr (true, VTuple [active; po; VDict overrides], extracted overrides), w)
    else
      (inr (false, VTuple [active; VNone; VDict overrides],
            "No active preset to override"), w).
Proof.
  intros Hro Hp Hpo. run_resolver. rewrite Hro. simpl. rewrite Hp, Hpo. simpl.
  destruct (truthy (active_preset_name (self w))); reflexivity.
Qed.

Lemma resolver_no_preset_keys (overrides ro : dict) (w : World) :
  overrides !! "request_overrides" = Some (VDict ro) →
  ro !! "preset" = None →
  ro !! "preset_overrides" = None →
  extract_preset_configuration_from_overrides overrides w =
    (inr (true, VTuple [VNone; VNone; VDict overrides], extracted overrides), w).
Proof. intros Hro Hp Hpo. run_resolver. rewrite Hro. simpl. rewrite Hp, Hpo. reflexivity. Qed.

End Resolver.

(** ** The resolver: claims *)

Section ResolverClaims.
Context `{Collaborators}.

(** C1: a payload whose [request_overrides] mapping sets
    [preset_overrides] but no [preset] key, on a backend without a standing
    active preset name, makes the resolver return a failed result whose
    message is exactly "No active preset to override"; nothing is
    activated and the backend is left as it was. *)
Theorem resolver_no_active_preset_to_override
    (overrides ro : dict) (po : pyval) (w : World) :
  overrides !! "request_overrides" = Some (VDict ro) →
  ro !! "preset_overrides" = Some po →
  ro !! "preset" = None →
  truthy (active_preset_name (self w)) = false →
  extract_preset_configuration_from_overrides overrides w =
    (inr (false,
          VTuple [active_preset_name (self w); VNone; VDict overrides],
          "No active preset to override"), w).
Proof.
  intros Hro Hpo Hp Hactive.
  rewrite (resolver_preset_overrides_only overrides ro po w Hro Hp Hpo).
  simpl. rewrite Hactive. reflexivity.
Qed.

(** C3: when [request_overrides] carries an explicit [preset] key and the
    backend has a standing active preset, the preset name in the resolver's
    payload is the value of the explicit key, not the standing active preset;
    the resolution succeeds exactly when that value is truthy. *)
Theorem resolver_explicit_preset_wins
    (overrides ro : dict) (p : pyval) (w : World) :
  overrides !! "request_overrides" = Some (VDict ro) →
  ro !! "preset" = Some p →
  truthy (active_preset_name (self w)) = true →
  ∃ preset_overrides msg w',
    extract_preset_configuration_from_overrides overrides w =
      (inr (truthy p, VTuple [p; preset_overrides; VDict overrides], msg), w').
Proof.
  intros Hro Hp _.
  rewrite (resolver_with_explicit_preset overrides ro p w Hro Hp). simpl.
  destruct (truthy p); eauto.
Qed.

(** C5: a payload without a [request_overrides] key, or whose
    [request_overrides] mapping has neither a [preset] nor a
    [preset_overrides] key, resolves successfully with preset name [None]
    and preset overrides [None]. *)
Theorem resolver_nothing_to_resolve (overrides : dict) (w : World) :
  overrides !! "request_overrides" = None
  ∨ (∃ ro, overrides !! "request_overrides" = Some (VDict ro)
           ∧ ro !! "preset" = None ∧ ro !! "preset_overrides" = None) →
  extract_preset_configuration_from_overrides overrides w =
    (inr (true, VTuple [VNone; VNone; VDict overrides], extracted overrides), w).
Proof.
  intros [Hnone | (ro & Hro & Hp & Hpo)].
  - by apply resolver_no_request_overrides.
  - by apply (resolver_no_preset_keys overrides ro).
Qed.

(** C9: when [request_overrides] maps [preset] to a falsy value and no preset
    is active, the resolver fails with "No active preset to override",
    whether or not a [preset_overrides] key is present, so also when there
    is none at all: the falsy explicit preset is not the nothing-to-resolve
    success case. *)
Theorem resolver_falsy_explicit_preset_fails
    (overrides ro : dict) (p : pyval) (w : World) :
  overrides !! "request_overrides" = Some (VDict ro) →
  ro !! "preset" = Some p →
  truthy p = false →
  truthy (active_preset_name (self w)) = false →
  ∃ w',
    extract_preset_configuration_from_overrides overrides w =
      (inr (false, VTuple [p; VNone; VDict overrides],
            "No active preset to override"), w').
Proof.
  intros Hro Hp Hfalsy _.
  rewrite (resolver_with_explicit_preset overrides ro p w Hro Hp). simpl.
  rewrite Hfalsy. eauto.
Qed.

End ResolverClaims.

Section ResolverRuns.
Import Sample.

Lemma resolver_no_active_preset_to_override_witness :
  let overrides := overrides_only_request (VDict {[ "temperature" := VInt 0 ]}) in
  let w := Sample.start Sample.fresh in
  extract_preset_configuration_from_overrides overrides w =
    (inr (false, VTuple [VNone; VNone; VDict overrides],
          "No active preset to override"), w).
Proof.
  intros overrides w.
  apply (resolver_no_active_preset_to_override overrides
           {[ "preset_overrides" := VDict {[ "temperature" := VInt 0 ]} ]}
           (VDict {[ "temperature" := VInt 0 ]}) w); reflexivity.
Defined.

Lemma resolver_explicit_preset_wins_witness :
  let overrides := preset_request (VStr "turbo") ∅ in
  let w := Sample.start Sample.busy in
  ∃ preset_overrides msg w',
    extract_preset_configuration_from_overrides overrides w =
      (inr (true, VTuple [VStr "turbo"; preset_overrides; VDict overrides], msg), w').
Proof.
  intros overrides w.
  apply (resolver_explicit_preset_wins overrides
           (<["preset" := VStr "turbo"]> ∅) (VStr "turbo") w); reflexivity.
Defined.

Lemma resolver_nothing_to_resolve_witness :
  let overrides : dict := {[ "request_overrides" := VDict {[ "stream_callback" := VObj 9 ]} ]} in
  let w := Sample.start Sample.busy in
  extract_preset_configuration_from_overrides overrides w =
    (inr (true, VTuple [VNone; VNone; VDict overrides], extracted overrides), w).
Proof.
  intros overrides w.
  apply (resolver_nothing_to_resolve overrides w).
  right. exists {[ "stream_callback" := VObj 9 ]}.
  repeat split; reflexivity.
Defined.

Lemma resolver_falsy_explicit_preset_fails_witness :
  let bare := preset_request (VStr "") ∅ in
  let extra : dict := {[ "preset_overrides" := VDict {[ "temperature" := VInt 0 ]} ]} in
  let loaded := preset_request VNone extra in
  let w := Sample.start Sample.fresh in
  (∃ w',
     extract_preset_configuration_from_overrides bare w =
       (inr (false, VTuple [VStr ""; VNone; VDict bare],
             "No active preset to override"), w'))
  ∧ (∃ w',
       extract_preset_configuration_from_overrides loaded w =
         (inr (false, VTuple [VNone; VNone; VDict loaded],
               "No active preset to override"), w')).
Proof.
  intros bare extra loaded w. split.
  - apply (resolver_falsy_explicit_preset_fails bare
             (<["preset" := VStr ""]> ∅) (VStr "") w); reflexivity.
  - apply (resolver_falsy_explicit_preset_fails loaded
             (<["preset" := VNone]> extra) VNone w); reflexivity.
Defined.

End ResolverRuns.

(** ** The resolver: activation *)

Section Activation.
Context `{Collaborators}.

(** A [request_overrides] entry that is not a mapping never gets as far as
    the activation: the membership tests or the subscript raise first. *)
Lemma resolver_not_mapping (overrides : dict) (v : pyval) (w : World) :
  overrides !! "request_overrides" = Some v →
  (∀ ro, v ≠ VDict ro) →
  (extract_preset_configuration_from_overrides overrides w).2 = w.
Proof.
  intros Hro Hv. run_resolver. rewrite Hro.
  destruct v; simpl; try reflexivity.
  - destruct (is_substring "preset" s); simpl; [reflexivity |].
    destruct (is_substring "preset_overrides" s); simpl; [| reflexivity].
    destruct (truthy (active_preset_name (self w))); reflexivity.
  - destruct (existsb (is_str "preset") items); simpl; [reflexivity |].
    destruct (existsb (is_str "preset_overrides") items); simpl; [| reflexivity].
    destruct (truthy (active_preset_name (self w))); reflexivity.
  - by destruct (Hv entries).
Qed.

(** The world after resolution, for every payload. *)
Lemma resolver_world (overrides : dict) (w : World) :
  (extract_preset_configuration_from_overrides overrides w).2 =
    match overrides !! "request_overrides" with
    | Some (VDict ro) =>
        match ro !! "preset" with
        | Some p => if activation_flag ro then activated p w else w
        | None => w
        end
    | _ => w
    end.
Proof.
  destruct (overrides !! "request_overrides") as [v|] eqn:Hro.
  2: { by rewrite resolver_no_request_overrides. }
  destruct v as [ | | | | |ro| ];
    try (apply (resolver_not_mapping overrides _ w Hro); discriminate).
  destruct (ro !! "preset") as [p|] eqn:Hp.
  - rewrite (resolver_with_explicit_preset overrides ro p w Hro Hp). simpl.
    destruct (truthy p); reflexivity.
  - destruct (ro !! "preset_overrides") as [po|] eqn:Hpo.
    + rewrite (resolver_preset_overrides_only overrides ro po w Hro Hp Hpo).
      simpl. destruct (truthy (active_preset_name (self w))); reflexivity.
    + by rewrite (resolver_no_preset_keys overrides ro w Hro Hp Hpo).
Qed.

(** C6: when [request_overrides] carries an explicit [preset] key and a
    truthy [activate_preset] flag, resolution calls the preset activation of
    the concrete backend for that preset name, once and before anything else;
    for every other payload resolution makes no call and leaves the backend
    untouched. *)
Theorem resolver_activates_exactly_on_request (overrides : dict) (w : World) :
  (∀ ro p flag,
     overrides !! "request_overrides" = Some (VDict ro) →
     ro !! "preset" = Some p →
     ro !! "activate_preset" = Some flag →
     truthy flag = true →
     (extract_preset_configuration_from_overrides overrides w).2 = activated p w)
  ∧ ((∀ ro p flag,
        overrides !! "request_overrides" = Some (VDict ro) →
        ro !! "preset" = Some p →
        ro !! "activate_preset" = Some flag →
        truthy flag = false) →
     (extract_preset_configuration_from_overrides overrides w).2 = w).
Proof.
  rewrite resolver_world. split.
  - intros ro p flag Hro Hp Hflag Htruthy.
    rewrite Hro, Hp. unfold activation_flag. rewrite Hflag, Htruthy. reflexivity.
  - intros Hnever.
    destruct (overrides !! "request_overrides") as [[ | | | | |ro| ]|];
      try reflexivity.
    destruct (ro !! "preset") as [p|] eqn:Hp; [| reflexivity].
    unfold activation_flag.
    destruct (ro !! "activate_preset") as [flag|] eqn:Hflag; [| reflexivity].
    rewrite (Hnever ro p flag eq_refl Hp Hflag). reflexivity.
Qed.

(** C10, as the code has it: a truthy [activate_preset] flag without an
    explicit [preset] key activates nothing and leaves the backend, standing
    active preset included, as it was.  The preset name of the payload is the
    standing active preset name when [preset_overrides] is present, and [None]
    when it is not. *)
Theorem resolver_flag_without_preset_activates_nothing
    (overrides ro : dict) (flag : pyval) (w : World) :
  overrides !! "request_overrides" = Some (VDict ro) →
  ro !! "activate_preset" = Some flag →
  truthy flag = true →
  ro !! "preset" = None →
  ∃ ok preset_overrides msg,
    extract_preset_configuration_from_overrides overrides w =
      (inr (ok,
            VTuple [if ro !! "preset_overrides" is Some _
                    then active_preset_name (self w) else VNone;
                    preset_overrides; VDict overrides],
            msg), w).
Proof.
  intros Hro _ _ Hp.
  destruct (ro !! "preset_overrides") as [po|] eqn:Hpo.
  - rewrite (resolver_preset_overrides_only overrides ro po w Hro Hp Hpo).
    simpl. destruct (truthy (active_preset_name (self w))); eauto.
  - rewrite (resolver_no_preset_keys overrides ro w Hro Hp Hpo). eauto.
Qed.

End Activation.

Section ActivationRuns.
Import Sample.

Lemma resolver_activates_exactly_on_request_witness :
  let extra : dict := {[ "activate_preset" := VBool true ]} in
  let w := start fresh in
  (extract_preset_configuration_from_overrides
     (preset_request (VStr "turbo") extra) w).2 = activated (VStr "turbo") w
  ∧ (extract_preset_configuration_from_overrides
       (preset_request (VStr "turbo") ∅) w).2 = w.
Proof.
  intros extra w. split.
  - apply (proj1 (resolver_activates_exactly_on_request
                    (preset_request (VStr "turbo") extra) w)
             (<["preset" := VStr "turbo"]> extra) (VStr "turbo") (VBool true));
      reflexivity.
  - apply (proj2 (resolver_activates_exactly_on_request
                    (preset_request (VStr "turbo") ∅) w)).
    intros ro p flag Hro Hp Hflag.
    assert (ro = <["preset" := VStr "turbo"]> ∅) as -> by
      (unfold preset_request in Hro; rewrite lookup_singleton_eq in Hro; congruence).
    rewrite lookup_insert_ne in Hflag by done. by rewrite lookup_empty in Hflag.
Defined.

Lemma resolver_flag_without_preset_activates_nothing_witness :
  let ro : dict := {[ "activate_preset" := VBool true;
                      "preset_overrides" := VDict {[ "temperature" := VInt 0 ]} ]} in
  let overrides : dict := {[ "request_overrides" := VDict ro ]} in
  let w := start busy in
  ∃ ok preset_overrides msg,
    extract_preset_configuration_from_overrides overrides w =
      (inr (ok, VTuple [VStr "gpt4"; preset_overrides; VDict overrides], msg), w).
Proof.
  intros ro overrides w.
  apply (resolver_flag_without_preset_activates_nothing overrides ro (VBool true) w);
    reflexivity.
Defined.

(** C10 as stated fails: with a truthy flag, no [preset] key and no
    [preset_overrides] key the guard of the resolver is false, and the
    resolved preset name is [None] although preset "gpt4" is active. *)
Lemma resolver_flag_alone_does_not_fall_back :
  let ro : dict := {[ "activate_preset" := VBool true ]} in
  let overrides : dict := {[ "request_overrides" := VDict ro ]} in
  let w := start busy in
  overrides !! "request_overrides" = Some (VDict ro)
  ∧ ro !! "activate_preset" = Some (VBool true)
  ∧ truthy (VBool true) = true
  ∧ ro !! "preset" = None
  ∧ active_preset_name (self w) = VStr "gpt4"
  ∧ extract_preset_configuration_from_overrides overrides w =
      (inr (true, VTuple [VNone; VNone; VDict overrides], extracted overrides), w)
  ∧ ¬ falls_back_to_active_preset overrides w.
Proof.
  intros ro overrides w.
  assert (extract_preset_configuration_from_overrides overrides w =
      (inr (true, VTuple [VNone; VNone; VDict overrides], extracted overrides), w))
    as Hrun by reflexivity.
  repeat split; try reflexivity.
  intros (ok & po & msg & Hfall). rewrite Hrun in Hfall. discriminate Hfall.
Qed.

End ActivationRuns.

(** ** Conversation state *)

(** C7: [new_conversation] always returns normally; it sets the
    conversation identifier, title, title-set flag and message clipboard to
    [None] and leaves the streaming flag, every other attribute and the call
    log as they were. *)
Theorem new_conversation_clears_conversation (w : World) :
  new_conversation w =
    (inr (),
     mkWorld
       (mkBackend VNone VNone VNone (stream (self w)) (provider_name (self w))
          (provider (self w)) VNone (streaming (self w)) (model (self w))
          (available_models (self w)) (active_preset_name (self w)))
       (calls w)).
Proof.
  destruct w as [b cs]. unfold new_conversation, update. run_monad.
  cbn [self calls]. unfold set_message_clipboard, set_conversation_title_set,
    set_conversation_title, set_conversation_id.
  destruct b; reflexivity.
Qed.

(** ** The template pipeline *)

Section Pipeline.
Context `{Collaborators}.

(** Step 1 fails: the result of the template manager is passed through. *)
Lemma run_template_fetch_failure
    (template_name : string) (template_vars overrides : option dict)
    (payload : pyval) (msg : string) (w : World) :
  get_template_variables_substitutions template_name = (false, payload, msg) →
  run_template template_name template_vars overrides w =
    (inr (false, payload, msg),
     logged (CallGetTemplateVariablesSubstitutions template_name) w).
Proof.
  intros Hget. unfold run_template. run_monad. rewrite Hget. reflexivity.
Qed.

(** Step 3 fails: the result of the setup is passed through. *)
Lemma run_template_setup_failure
    (template_name : string) (template_vars overrides : option dict)
    (t v : pyval) (substitutions : dict) (msg0 : string)
    (payload : pyval) (msg : string) (w w' : World) :
  get_template_variables_substitutions template_name =
    (true, VTuple [t; v; VDict substitutions], msg0) →
  run_template_setup template_name
      (Some (merge_dicts substitutions (or_empty template_vars)))
      (before_setup template_name substitutions template_vars w) =
    (inr (false, payload, msg), w') →
  run_template template_name template_vars overrides w =
    (inr (false, payload, msg), w').
Proof.
  intros Hget Hsetup. unfold run_template. run_monad. rewrite Hget.
  cbn [negb unpack3 call_merge_dicts]. run_monad.
  unfold before_setup, logged in Hsetup. cbn [self calls] in *.
  rewrite Hsetup. reflexivity.
Qed.

(** Steps 1 to 3 succeed: the pipeline merges the caller's overrides over
    the template's and hands over to [run_template_compiled]. *)
Lemma run_template_success_path
    (template_name : string) (template_vars overrides : option dict)
    (t v : pyval) (substitutions : dict) (msg0 : string)
    (message : pyval) (template_overrides : dict) (msg : string)
    (w w' : World) :
  get_template_variables_substitutions template_name =
    (true, VTuple [t; v; VDict substitutions], msg0) →
  run_template_setup template_name
      (Some (merge_dicts substitutions (or_empty template_vars)))
      (before_setup template_name substitutions template_vars w) =
    (inr (true, VTuple [message; VDict template_overrides], msg), w') →
  run_template template_name template_vars overrides w =
    run_template_compiled message
      (Some (merge_dicts template_overrides (or_empty overrides)))
      (logged (CallMergeDicts template_overrides (or_empty overrides)) w').
Proof.
  intros Hget Hsetup. unfold run_template. run_monad. rewrite Hget.
  cbn [negb unpack3 call_merge_dicts]. run_monad.
  unfold before_setup, logged in Hsetup. cbn [self calls] in *.
  rewrite Hsetup. reflexivity.
Qed.

(** The resolver calls nothing but the preset activation. *)
Lemma resolver_calls (overrides : dict) (w : World) :
  ∃ cs, makes_calls w (extract_preset_configuration_from_overrides overrides w).2 cs
        ∧ existsb is_merge_or_ask cs = false.
Proof.
  rewrite resolver_world. unfold makes_calls.
  destruct (overrides !! "request_overrides") as [[ | | | | |ro| ]|];
    try (exists []; by rewrite app_nil_r).
  destruct (ro !! "preset") as [p|]; [| exists []; by rewrite app_nil_r].
  destruct (activation_flag ro); [| exists []; by rewrite app_nil_r].
  by exists [CallActivatePreset p].
Qed.

(** Step 3b fails: flag and message of the resolver are passed on, the
    payload is rebuilt around the compiled message. *)
Lemma run_template_setup_resolver_failure
    (template_name : string) (substitutions : option dict)
    (message : pyval) (template_overrides : dict)
    (payload : pyval) (msg : string) (w w' : World) :
  build_message_from_template template_name (or_empty substitutions) =
    (message, template_overrides) →
  extract_preset_configuration_from_overrides template_overrides
      (logged (CallBuildMessageFromTemplate template_name
                 (or_empty substitutions)) w) =
    (inr (false, payload, msg), w') →
  run_template_setup template_name substitutions w =
    (inr (false, VTuple [message; VNone; VDict template_overrides], msg), w').
Proof.
  intros Hbuild Hres. unfold run_template_setup. run_monad.
  rewrite Hbuild. unfold logged in Hres. rewrite Hres. reflexivity.
Qed.

(** Step 3c fails: the result of [set_override_llm] is passed through. *)
Lemma run_template_setup_llm_failure
    (template_name : string) (substitutions : option dict)
    (message : pyval) (template_overrides : dict)
    (preset_name preset_overrides payload llm : pyval) (msg msg' : string)
    (b : Backend) (w w' : World) :
  build_message_from_template template_name (or_empty substitutions) =
    (message, template_overrides) →
  extract_preset_configuration_from_overrides template_overrides
      (logged (CallBuildMessageFromTemplate template_name
                 (or_empty substitutions)) w) =
    (inr (true, VTuple [preset_name; preset_overrides; payload], msg), w') →
  truthy preset_name = true →
  set_override_llm preset_name preset_overrides (self w') =
    ((false, llm, msg'), b) →
  run_template_setup template_name substitutions w =
    (inr (false, llm, msg'),
     mkWorld b (calls w' ++ [CallSetOverrideLlm preset_name preset_overrides])).
Proof.
  intros Hbuild Hres Hname Hllm. unfold run_template_setup. run_monad.
  rewrite Hbuild. unfold logged in Hres. rewrite Hres.
  cbn [negb unpack3]. rewrite Hname, Hllm. reflexivity.
Qed.

(** The setup first compiles the template with the substitutions it was
    given; after that it calls nothing but the preset activation and
    [set_override_llm]. *)
Lemma run_template_setup_calls
    (template_name : string) (substitutions : option dict) (w : World) :
  ∃ cs,
    makes_calls w (run_template_setup template_name substitutions w).2
      (CallBuildMessageFromTemplate template_name (or_empty substitutions) :: cs)
    ∧ existsb is_merge_or_ask cs = false.
Proof.
  unfold run_template_setup. run_monad.
  destruct (build_message_from_template template_name (or_empty substitutions))
    as [message template_overrides].
  set (w1 := mkWorld (self w) _).
  destruct (resolver_calls template_overrides w1) as (cs1 & Hcs1 & Hquiet1).
  unfold makes_calls in *.
  destruct (extract_preset_configuration_from_overrides template_overrides w1)
    as [[e|[[ok payload] msg]] w2]; cbn [snd] in Hcs1.
  - exists cs1. split; [| done]. cbn [snd]. rewrite Hcs1. subst w1. cbn [calls].
    by rewrite <- app_assoc.
  - assert (calls w2 = (calls w ++
        CallBuildMessageFromTemplate template_name (or_empty substitutions) :: cs1)%list)
      as Hw2 by (rewrite Hcs1; subst w1; cbn [calls]; by rewrite <- app_assoc).
    destruct ok; cbn [negb]; [| by exists cs1].
    destruct (unpack3 payload) as [e|[[pn po] ov]]; [by exists cs1 |].
    destruct (truthy pn); [| by exists cs1].
    destruct (set_override_llm pn po (self w2)) as [[[ok' llm] msg'] b].
    exists (cs1 ++ [CallSetOverrideLlm pn po])%list. split.
    + destruct ok'; cbn [snd calls]; rewrite Hw2;
        by rewrite <- app_assoc.
    + rewrite existsb_app, Hquiet1. reflexivity.
Qed.

(** With the template variables fetched, the pipeline merges the caller's
    variables over the template's and compiles the template with the merged
    mapping, whatever happens afterwards. *)
Lemma run_template_compiles_merged_variables
    (template_name : string) (template_vars overrides : option dict)
    (t v : pyval) (substitutions : dict) (msg0 : string) (w : World) :
  get_template_variables_substitutions template_name =
    (true, VTuple [t; v; VDict substitutions], msg0) →
  ∃ cs,
    makes_calls w (run_template template_name template_vars overrides w).2
      ([CallGetTemplateVariablesSubstitutions template_name;
        CallMergeDicts substitutions (or_empty template_vars);
        CallBuildMessageFromTemplate template_name
          (merge_dicts substitutions (or_empty template_vars))] ++ cs).
Proof.
  intros Hget. unfold run_template. run_monad. rewrite Hget.
  cbn [negb unpack3 call_merge_dicts]. run_monad.
  set (merged := merge_dicts substitutions (or_empty template_vars)).
  destruct (run_template_setup_calls template_name (Some merged)
              (before_setup template_name substitutions template_vars w))
    as (cs & Hcs & _).
  rewrite or_empty_Some in Hcs.
  unfold makes_calls, before_setup, logged in *. cbn [self calls] in *.
  destruct (run_template_setup template_name (Some merged) _)
    as [[e|[[ok response] msg]] w2]; cbn [snd] in Hcs |- *;
    rewrite <- !app_assoc in Hcs; cbn [app] in Hcs.
  { exists cs. exact Hcs. }
  rename Hcs into Hw2.
  destruct ok; cbn [negb]; [| exists cs; exact Hw2].
  destruct (unpack2 response) as [e|[message template_overrides]];
    [exists cs; exact Hw2 |].
  destruct template_overrides as [ | | | | |entries| ];
    try (exists cs; exact Hw2).
  cbn [call_merge_dicts]. unfold run_template_compiled. run_monad.
  destruct (_ask _ _ _) as [r b].
  eexists (cs ++ [_; _])%list. cbn [snd calls]. rewrite Hw2.
  rewrite <- !app_assoc. reflexivity.
Qed.

(** On the success path [_ask] receives the caller's overrides merged over
    the template's, and its result is the result of the pipeline. *)
Lemma run_template_asks_with_merged_overrides
    (template_name : string) (template_vars overrides : option dict)
    (t v : pyval) (substitutions : dict) (msg0 : string)
    (message : pyval) (template_overrides : dict) (msg : string)
    (w w' : World) :
  get_template_variables_substitutions template_name =
    (true, VTuple [t; v; VDict substitutions], msg0) →
  run_template_setup template_name
      (Some (merge_dicts substitutions (or_empty template_vars)))
      (before_setup template_name substitutions template_vars w) =
    (inr (true, VTuple [message; VDict template_overrides], msg), w') →
  let kwargs := merge_dicts template_overrides (or_empty overrides) in
  let out := run_template template_name template_vars overrides w in
  out.1 = inr (_ask message kwargs (self w')).1
  ∧ self out.2 = (_ask message kwargs (self w')).2
  ∧ makes_calls w' out.2
      [CallMergeDicts template_overrides (or_empty overrides);
       CallAsk message kwargs].
Proof.
  intros Hget Hsetup kwargs out. subst out.
  rewrite (run_template_success_path _ _ _ _ _ _ _ _ _ _ _ _ Hget Hsetup).
  unfold run_template_compiled, makes_calls, logged. rewrite or_empty_Some.
  run_monad. fold kwargs. cbn [self calls].
  destruct (_ask message kwargs (self w')) as [r b]. cbn.
  rewrite <- app_assoc. auto.
Qed.

(** C8, as the code has it: [run_template_compiled] calls the [_ask] method
    of the concrete backend, once, with the overrides (the empty mapping when
    they are absent or empty) as keyword arguments, and returns what [_ask]
    returned; the backend is left as [_ask] left it.  When the first three
    steps of [run_template] succeed, this is the result of the pipeline. *)
Theorem run_template_compiled_returns_ask_result
    (message : pyval) (overrides : option dict) (w : World) :
  (let kwargs := or_empty overrides in
   let out := run_template_compiled message overrides w in
   out.1 = inr (_ask message kwargs (self w)).1
   ∧ self out.2 = (_ask message kwargs (self w)).2
   ∧ makes_calls w out.2 [CallAsk message kwargs])
  ∧ (∀ template_name template_vars t v substitutions msg0
       template_overrides msg w0,
       get_template_variables_substitutions template_name =
         (true, VTuple [t; v; VDict substitutions], msg0) →
       run_template_setup template_name
           (Some (merge_dicts substitutions (or_empty template_vars)))
           (before_setup template_name substitutions template_vars w0) =
         (inr (true, VTuple [message; VDict template_overrides], msg), w) →
       let kwargs := merge_dicts template_overrides (or_empty overrides) in
       (run_template template_name template_vars overrides w0).1 =
         inr (_ask message kwargs (self w)).1).
Proof.
  split.
  - intros kwargs out. subst out kwargs.
    unfold run_template_compiled, makes_calls. run_monad.
    destruct (_ask message (or_empty overrides) (self w)) as [r b].
    auto.
  - intros template_name template_vars t v substitutions msg0
      template_overrides msg w0 Hget Hsetup kwargs.
    by destruct (run_template_asks_with_merged_overrides template_name
                   template_vars overrides t v substitutions msg0 message
                   template_overrides msg w0 w Hget Hsetup) as [-> _].
Qed.


(** C2, as the code has it: a failure in steps 1 to 3 ends [run_template]
    at once.  A failed template-variable fetch and a failed setup are returned
    as they are, flag, payload and message, and so is a failed
    [set_override_llm] by the setup; a failed preset resolution keeps its flag
    and message while the setup replaces its payload by
    [(message, None, overrides)].  The world is the one the failing stage
    left, and the setup never merges or asks: neither the merge of the
    caller's overrides nor the dispatch runs. *)
Theorem run_template_short_circuits
    (template_name : string) (template_vars overrides : option dict) (w : World) :
  (∀ payload msg,
     get_template_variables_substitutions template_name = (false, payload, msg) →
     run_template template_name template_vars overrides w =
       (inr (false, payload, msg),
        logged (CallGetTemplateVariablesSubstitutions template_name) w))
  ∧ (∀ t v substitutions msg0 payload msg w',
       get_template_variables_substitutions template_name =
         (true, VTuple [t; v; VDict substitutions], msg0) →
       run_template_setup template_name
           (Some (merge_dicts substitutions (or_empty template_vars)))
           (before_setup template_name substitutions template_vars w) =
         (inr (false, payload, msg), w') →
       run_template template_name template_vars overrides w =
         (inr (false, payload, msg), w'))
  ∧ (∀ substitutions message template_overrides payload msg w0 w',
       build_message_from_template template_name (or_empty substitutions) =
         (message, template_overrides) →
       extract_preset_configuration_from_overrides template_overrides
           (logged (CallBuildMessageFromTemplate template_name
                      (or_empty substitutions)) w0) =
         (inr (false, payload, msg), w') →
       run_template_setup template_name substitutions w0 =
         (inr (false, VTuple [message; VNone; VDict template_overrides], msg), w'))
  ∧ (∀ substitutions message template_overrides preset_name preset_overrides
       payload llm msg msg' b w0 w',
       build_message_from_template template_name (or_empty substitutions) =
         (message, template_overrides) →
       extract_preset_configuration_from_overrides template_overrides
           (logged (CallBuildMessageFromTemplate template_name
                      (or_empty substitutions)) w0) =
         (inr (true, VTuple [preset_name; preset_overrides; payload], msg), w') →
       truthy preset_name = true →
       set_override_llm preset_name preset_overrides (self w') =
         ((false, llm, msg'), b) →
       run_template_setup template_name substitutions w0 =
         (inr (false, llm, msg'),
          mkWorld b (calls w' ++ [CallSetOverrideLlm preset_name preset_overrides])))
  ∧ (∀ substitutions w0,
       ∃ cs,
         makes_calls w0 (run_template_setup template_name substitutions w0).2
           (CallBuildMessageFromTemplate template_name (or_empty substitutions) :: cs)
         ∧ existsb is_merge_or_ask cs = false).
Proof.
  repeat split.
  - intros. by apply run_template_fetch_failure.
  - intros. by eapply run_template_setup_failure.
  - intros. eapply run_template_setup_resolver_failure; eassumption.
  - intros substitutions message template_overrides preset_name
      preset_overrides payload llm msg msg' b w0 w' Hbuild Hres Hname Hllm.
    exact (run_template_setup_llm_failure template_name substitutions message
             template_overrides preset_name preset_overrides payload llm msg
             msg' b w0 w' Hbuild Hres Hname Hllm).
  - intros. apply run_template_setup_calls.
Qed.

(** C4: merging the second mapping over the first keeps every key of both,
    and on a key of both the value of the second wins; template overrides
    {a:1,b:2} merged with caller overrides {b:3,c:4} give {a:1,b:3,c:4}.
    [run_template] merges the caller's template variables over the template's
    substitutions before it compiles the template, and the caller's overrides
    over the template's overrides before it asks. *)
Theorem merge_dicts_caller_wins :
  (∀ (dict1 dict2 : dict) (key : string),
     merge_dicts dict1 dict2 !! key =
       match dict2 !! key with
       | Some v => Some v
       | None => dict1 !! key
       end)
  ∧ (∀ dict1 dict2 : dict,
       dom (merge_dicts dict1 dict2) = dom dict1 ∪ dom dict2)
  ∧ merge_dicts {[ "a" := VInt 1; "b" := VInt 2 ]}
                {[ "b" := VInt 3; "c" := VInt 4 ]}
      = {[ "a" := VInt 1; "b" := VInt 3; "c" := VInt 4 ]}
  ∧ (∀ template_name template_vars overrides t v substitutions msg0 w,
       get_template_variables_substitutions template_name =
         (true, VTuple [t; v; VDict substitutions], msg0) →
       ∃ cs,
         makes_calls w (run_template template_name template_vars overrides w).2
           ([CallGetTemplateVariablesSubstitutions template_name;
             CallMergeDicts substitutions (or_empty template_vars);
             CallBuildMessageFromTemplate template_name
               (merge_dicts substitutions (or_empty template_vars))] ++ cs))
  ∧ (∀ template_name template_vars overrides t v substitutions msg0
       message template_overrides msg w w',
       get_template_variables_substitutions template_name =
         (true, VTuple [t; v; VDict substitutions], msg0) →
       run_template_setup template_name
           (Some (merge_dicts substitutions (or_empty template_vars)))
           (before_setup template_name substitutions template_vars w) =
         (inr (true, VTuple [message; VDict template_overrides], msg), w') →
       makes_calls w' (run_template template_name template_vars overrides w).2
         [CallMergeDicts template_overrides (or_empty overrides);
          CallAsk message (merge_dicts template_overrides (or_empty overrides))]).
Proof.
  split; [exact merge_dicts_lookup |].
  split.
  { intros dict1 dict2. unfold merge_dicts. rewrite dom_union_L.
    apply (comm_L (∪)). }
  split; [reflexivity |].
  split.
  - intros. by eapply run_template_compiles_merged_variables.
  - intros template_name template_vars overrides t v substitutions msg0
      message template_overrides msg w w' Hget Hsetup.
    by destruct (run_template_asks_with_merged_overrides template_name
                   template_vars overrides t v substitutions msg0 message
                   template_overrides msg w w' Hget Hsetup) as (_ & _ & ?).
Qed.

End Pipeline.

Section PipelineRuns.
Import Sample.

Lemma run_template_compiled_returns_ask_result_witness :
  let w := start fresh in
  let name : dict := {[ "name" := VStr "Ada" ]} in
  (run_template "greet" (Some name) None w).1 =
    inr (true, VStr "Hello, Ada", "asked or streamed").
Proof.
  intros w name.
  refine (eq_trans
    (proj2 (run_template_compiled_returns_ask_result (VStr "Hello, Ada") None
              (logged (CallBuildMessageFromTemplate "greet" name)
                 (before_setup "greet" ∅ (Some name) w)))
       "greet" (Some name) (VObj 1) (VTuple [VStr "name"]) ∅
       "template loaded" ∅ "Set up of template run complete: greet" w _ _) _);
    reflexivity.
Defined.

(** C8 as stated fails on a backend whose [_ask] is not its [ask]: the
    result and the backend are those of [_ask]. *)
Lemma run_template_compiled_does_not_call_ask :
  let out := run_template_compiled (VStr "Hello") None (start fresh) in
  out.1 = inr (true, VStr "Hello", "asked or streamed")
  ∧ (ask (VStr "Hello") (or_empty None) fresh).1 = (true, VStr "Hello", "asked")
  ∧ out.1 ≠ inr (ask (VStr "Hello") (or_empty None) fresh).1
  ∧ self out.2 ≠ (ask (VStr "Hello") (or_empty None) fresh).2.
Proof. repeat split; try reflexivity; discriminate. Qed.

Lemma run_template_short_circuits_witness :
  let w := start fresh in
  run_template "missing" None None w =
    (inr (false, VStr "missing", "template not found"),
     logged (CallGetTemplateVariablesSubstitutions "missing") w)
  ∧ run_template "tuned" None None w =
      (inr (false, VTuple [VStr "Hello"; VNone; VDict tuned_overrides],
            "No active preset to override"),
       logged (CallBuildMessageFromTemplate "tuned" ∅)
         (before_setup "tuned" ∅ None w))
  ∧ run_template "pinned" None None w =
      (inr (false, VNone, "preset not found"),
       logged (CallSetOverrideLlm (VStr "gone") VNone)
         (logged (CallBuildMessageFromTemplate "pinned" ∅)
            (before_setup "pinned" ∅ None w))).
Proof.
  intros w. split; [| split].
  - apply (proj1 (run_template_short_circuits "missing" None None w)).
    reflexivity.
  - apply (proj1 (proj2 (run_template_short_circuits "tuned" None None w))
             (VObj 1) (VTuple [VStr "name"]) ∅ "template loaded").
    + reflexivity.
    + apply (proj1 (proj2 (proj2 (run_template_short_circuits "tuned" None None w)))
               (Some ∅) (VStr "Hello") tuned_overrides
               (VTuple [VNone; VNone; VDict tuned_overrides]));
        reflexivity.
  - apply (proj1 (proj2 (run_template_short_circuits "pinned" None None w))
             (VObj 1) (VTuple [VStr "name"]) ∅ "template loaded").
    + reflexivity.
    + apply (proj1 (proj2 (proj2 (proj2
                 (run_template_short_circuits "pinned" None None w))))
               (Some ∅) (VStr "Hello") pinned_overrides (VStr "gone") VNone
               (VDict pinned_overrides) VNone (extracted pinned_overrides)
               "preset not found" fresh);
        reflexivity.
Defined.

(** C2 as stated fails: when the preset resolution fails, the payload the
    caller gets is not the payload of the resolver. *)
Lemma run_template_rebuilds_resolver_payload :
  let w := start fresh in
  let w1 := logged (CallBuildMessageFromTemplate "tuned" ∅)
              (before_setup "tuned" ∅ None w) in
  get_template_variables_substitutions "tuned" =
    (true, VTuple [VObj 1; VTuple [VStr "name"]; VDict ∅], "template loaded")
  ∧ build_message_from_template "tuned" ∅ = (VStr "Hello", tuned_overrides)
  ∧ extract_preset_configuration_from_overrides tuned_overrides w1 =
      (inr (false, VTuple [VNone; VNone; VDict tuned_overrides],
            "No active preset to override"), w1)
  ∧ run_template "tuned" None None w =
      (inr (false, VTuple [VStr "Hello"; VNone; VDict tuned_overrides],
            "No active preset to override"), w1)
  ∧ (run_template "tuned" None None w).1 ≠
      (extract_preset_configuration_from_overrides tuned_overrides w1).1.
Proof.
  intros w w1.
  assert (extract_preset_configuration_from_overrides tuned_overrides w1 =
      (inr (false, VTuple [VNone; VNone; VDict tuned_overrides],
            "No active preset to override"), w1)) as Hres by reflexivity.
  assert (run_template "tuned" None None w =
      (inr (false, VTuple [VStr "Hello"; VNone; VDict tuned_overrides],
            "No active preset to override"), w1)) as Hrun by reflexivity.
  repeat split; try reflexivity.
  rewrite Hres, Hrun. discriminate.
Qed.

Lemma merge_dicts_caller_wins_witness :
  let w := start fresh in
  let name : dict := {[ "name" := VStr "Ada" ]} in
  (∃ cs,
     makes_calls w (run_template "greet" (Some name) None w).2
       ([CallGetTemplateVariablesSubstitutions "greet";
         CallMergeDicts ∅ name;
         CallBuildMessageFromTemplate "greet" name] ++ cs))
  ∧ makes_calls
      (logged (CallBuildMessageFromTemplate "greet" name)
         (before_setup "greet" ∅ (Some name) w))
      (run_template "greet" (Some name) None w).2
      [CallMergeDicts ∅ ∅; CallAsk (VStr "Hello, Ada") ∅].
Proof.
  intros w name. split.
  - exact (proj1 (proj2 (proj2 (proj2 merge_dicts_caller_wins)))
             "greet" (Some name) None (VObj 1) (VTuple [VStr "name"]) ∅
             "template loaded" w eq_refl).
  - exact (proj2 (proj2 (proj2 (proj2 merge_dicts_caller_wins)))
             "greet" (Some name) None (VObj 1) (VTuple [VStr "name"]) ∅
             "template loaded" (VStr "Hello, Ada") ∅
             "Set up of template run complete: greet" w _ eq_refl eq_refl).
Defined.

End PipelineRuns.

(** * Beyond the claims *)

(** ** The resolver on every payload *)

Lemma prefix_append_l (a b s : string) :
  String.prefix (a ++ b) s = true → String.prefix a s = true.
Proof.
  revert s. induction a as [|c a IH]; intros s Hpre; [by destruct s |].
  destruct s as [|c' s]; simpl in *; [discriminate |].
  destruct (Ascii.ascii_dec c c'); [by apply IH | discriminate].
Qed.

Lemma is_substring_append_l (a b s : string) :
  is_substring (a ++ b) s = true → is_substring a s = true.
Proof.
  induction s as [|c s IH]; cbn [is_substring].
  - destruct (String.prefix (a ++ b) "") eqn:Hpre; [| done].
    intros _. by rewrite (prefix_append_l a b "" Hpre).
  - destruct (String.prefix (a ++ b) (String c s)) eqn:Hpre.
    + intros _. by rewrite (prefix_append_l a b _ Hpre).
    + intros Hsub. rewrite (IH Hsub). by destruct (String.prefix a (String c s)).
Qed.

Section ResolverShape.
Context `{Collaborators}.

(** What the resolver can come back with, on any payload at all. *)
Lemma resolver_result_shape (overrides : dict) (w : World) :
  match (extract_preset_configuration_from_overrides overrides w).1 with
  | inl e =>
      e = TypeError
      ∧ ∃ v, overrides !! "request_overrides" = Some v ∧ ∀ ro, v ≠ VDict ro
  | inr (true, payload, msg) =>
      msg = extracted overrides
      ∧ ∃ name po,
          payload = VTuple [name; po; VDict overrides]
          ∧ ((name = VNone ∧ po = VNone
              ∧ (extract_preset_configuration_from_overrides overrides w).2 = w)
             ∨ truthy name = true)
  | inr (false, payload, msg) =>
      msg = "No active preset to override"
      ∧ ∃ name, payload = VTuple [name; VNone; VDict overrides]
                ∧ truthy name = false
  end.
Proof.
  destruct (overrides !! "request_overrides") as [v|] eqn:Hro.
  2: { rewrite resolver_no_request_overrides by done. simpl. eauto 10. }
  destruct v as [ |b|z|s|items|ro|h].
  1-3, 7: run_resolver; rewrite Hro; simpl; split; [done |];
    eexists; split; [done | discriminate].
  - run_resolver. rewrite Hro. simpl.
    destruct (is_substring "preset" s) eqn:Hp; simpl.
    { split; [done |]. eexists; split; [done | discriminate]. }
    destruct (is_substring "preset_overrides" s) eqn:Hpo; simpl.
    { by rewrite (is_substring_append_l "preset" "_overrides" s Hpo) in Hp. }
    eauto 10.
  - run_resolver. rewrite Hro. simpl.
    destruct (existsb (is_str "preset") items); simpl.
    { split; [done |]. eexists; split; [done | discriminate]. }
    destruct (existsb (is_str "preset_overrides") items); simpl; [| eauto 10].
    destruct (truthy (active_preset_name (self w))) eqn:Hactive; simpl.
    + split; [done |]. eexists; split; [done | discriminate].
    + eauto.
  - destruct (ro !! "preset") as [p|] eqn:Hp.
    + rewrite (resolver_with_explicit_preset overrides ro p w Hro Hp). simpl.
      destruct (truthy p) eqn:Htruthy; simpl; eauto 10.
    + destruct (ro !! "preset_overrides") as [po|] eqn:Hpo.
      * rewrite (resolver_preset_overrides_only overrides ro po w Hro Hp Hpo).
        simpl. destruct (truthy (active_preset_name (self w))) eqn:Hactive;
          simpl; eauto 10.
      * rewrite (resolver_no_preset_keys overrides ro w Hro Hp Hpo). simpl.
        eauto 10.
Qed.

End ResolverShape.

Section ResolverExtras.
Context `{Collaborators}.

(** X1: without a [preset] key, [preset_overrides] are applied to the
    standing active preset: the resolver succeeds with the active preset name
    and the given overrides, and changes nothing. *)
Theorem resolver_falls_back_to_active_preset
    (overrides ro : dict) (po : pyval) (w : World) :
  overrides !! "request_overrides" = Some (VDict ro) →
  ro !! "preset" = None →
  ro !! "preset_overrides" = Some po →
  truthy (active_preset_name (self w)) = true →
  extract_preset_configuration_from_overrides overrides w =
    (inr (true, VTuple [active_preset_name (self w); po; VDict overrides],
          extracted overrides), w).
Proof.
  intros Hro Hp Hpo Hactive.
  rewrite (resolver_preset_overrides_only overrides ro po w Hro Hp Hpo).
  cbn zeta. by rewrite Hactive.
Qed.

(** X2: with a truthy explicit [preset], the resolver succeeds and the preset
    overrides of the payload are the value of the [preset_overrides] key, or
    [None] when there is no such key. *)
Theorem resolver_explicit_preset_captures_overrides
    (overrides ro : dict) (p : pyval) (w : World) :
  overrides !! "request_overrides" = Some (VDict ro) →
  ro !! "preset" = Some p →
  truthy p = true →
  (extract_preset_configuration_from_overrides overrides w).1 =
    inr (true,
         VTuple [p; default VNone (ro !! "preset_overrides"); VDict overrides],
         extracted overrides).
Proof.
  intros Hro Hp Htruthy.
  rewrite (resolver_with_explicit_preset overrides ro p w Hro Hp).
  cbn zeta. by rewrite Htruthy.
Qed.

(** X3: on a [request_overrides] mapping the resolver fails in exactly two
    situations: the explicit [preset] is falsy, or there is no [preset] key
    while [preset_overrides] is present and no preset is active. *)
Theorem resolver_fails_iff (overrides ro : dict) (w : World) :
  overrides !! "request_overrides" = Some (VDict ro) →
  (∃ payload msg,
     (extract_preset_configuration_from_overrides overrides w).1 =
       inr (false, payload, msg))
  ↔ match ro !! "preset" with
    | Some p => truthy p = false
    | None => is_Some (ro !! "preset_overrides")
              ∧ truthy (active_preset_name (self w)) = false
    end.
Proof.
  intros Hro. destruct (ro !! "preset") as [p|] eqn:Hp.
  - rewrite (resolver_with_explicit_preset overrides ro p w Hro Hp). cbn zeta.
    destruct (truthy p); simpl; split; eauto; try done.
    intros (payload & msg & Hfail). discriminate Hfail.
  - destruct (ro !! "preset_overrides") as [po|] eqn:Hpo.
    + rewrite (resolver_preset_overrides_only overrides ro po w Hro Hp Hpo).
      cbn zeta. destruct (truthy (active_preset_name (self w))); simpl; split;
        eauto; try done.
      * intros (payload & msg & Hfail). discriminate Hfail.
      * intros [_ Habsurd]. discriminate Habsurd.
    + rewrite (resolver_no_preset_keys overrides ro w Hro Hp Hpo). simpl. split.
      * intros (payload & msg & Hfail). discriminate Hfail.
      * intros [[x Hx] _]. discriminate Hx.
Qed.

(** X4: whatever the payload, a failed resolution has the message
    "No active preset to override", a falsy preset name, no preset overrides
    and the payload it was given. *)
Theorem resolver_failure_shape
    (overrides : dict) (payload : pyval) (msg : string) (w w' : World) :
  extract_preset_configuration_from_overrides overrides w =
    (inr (false, payload, msg), w') →
  msg = "No active preset to override"
  ∧ ∃ name, payload = VTuple [name; VNone; VDict overrides]
            ∧ truthy name = false.
Proof.
  intros Hres. pose proof (resolver_result_shape overrides w) as Hshape.
  by rewrite Hres in Hshape.
Qed.

(** X5: whatever the payload, a successful resolution returns the payload it
    was given, and either resolves nothing at all (name and overrides [None],
    backend untouched) or resolves a truthy preset name: preset overrides
    never come without a preset. *)
Theorem resolver_success_shape
    (overrides : dict) (payload : pyval) (msg : string) (w w' : World) :
  extract_preset_configuration_from_overrides overrides w =
    (inr (true, payload, msg), w') →
  msg = extracted overrides
  ∧ ∃ name po,
      payload = VTuple [name; po; VDict overrides]
      ∧ ((name = VNone ∧ po = VNone ∧ w' = w) ∨ truthy name = true).
Proof.
  intros Hres. pose proof (resolver_result_shape overrides w) as Hshape.
  by rewrite Hres in Hshape.
Qed.

(** X6: the activation comes before the check of the preset name: a falsy
    explicit [preset] with a truthy [activate_preset] flag is activated, and
    only then does the resolver fail; the activation stays. *)
Theorem resolver_activates_before_failing
    (overrides ro : dict) (p flag : pyval) (w : World) :
  overrides !! "request_overrides" = Some (VDict ro) →
  ro !! "preset" = Some p →
  truthy p = false →
  ro !! "activate_preset" = Some flag →
  truthy flag = true →
  extract_preset_configuration_from_overrides overrides w =
    (inr (false, VTuple [p; VNone; VDict overrides],
          "No active preset to override"), activated p w).
Proof.
  intros Hro Hp Hfalsy Hflag Htruthy.
  rewrite (resolver_with_explicit_preset overrides ro p w Hro Hp).
  unfold activation_flag. cbn zeta. by rewrite Hfalsy, Hflag, Htruthy.
Qed.

(** X7: the resolver raises nothing when [request_overrides] is absent or
    a mapping: it always comes back with a result triple. *)
Theorem resolver_returns_on_mappings (overrides : dict) (w : World) :
  overrides !! "request_overrides" = None
  ∨ (∃ ro, overrides !! "request_overrides" = Some (VDict ro)) →
  ∃ r, (extract_preset_configuration_from_overrides overrides w).1 = inr r.
Proof.
  intros Hwell. pose proof (resolver_result_shape overrides w) as Hshape.
  destruct (extract_preset_configuration_from_overrides overrides w).1
    as [e|r]; [| by exists r].
  destruct Hshape as (_ & v & Hv & Hnot).
  destruct Hwell as [Hnone | [ro Hro]]; [congruence |].
  rewrite Hro in Hv. injection Hv as <-. by destruct (Hnot ro).
Qed.

(** X8: a [request_overrides] entry that is [None], a boolean or an integer
    makes the resolver raise [TypeError] at the first membership test, before
    anything is touched. *)
Theorem resolver_raises_on_scalar
    (overrides : dict) (v : pyval) (w : World) :
  overrides !! "request_overrides" = Some v →
  is_scalar v = true →
  extract_preset_configuration_from_overrides overrides w = (inl TypeError, w).
Proof.
  intros Hro Hscalar. run_resolver. rewrite Hro.
  by destruct v.
Qed.

(** X9: a string under [request_overrides] is searched, not looked up: a
    string without the substring "preset" passes as nothing to resolve, and
    any string containing it makes the resolver raise [TypeError] at the
    subscript. *)
Theorem resolver_on_string_request_overrides
    (overrides : dict) (s : string) (w : World) :
  overrides !! "request_overrides" = Some (VStr s) →
  extract_preset_configuration_from_overrides overrides w =
    if is_substring "preset" s then (inl TypeError, w)
    else (inr (true, VTuple [VNone; VNone; VDict overrides],
               extracted overrides), w).
Proof.
  intros Hro. run_resolver. rewrite Hro. simpl.
  destruct (is_substring "preset" s) eqn:Hp; simpl; [done |].
  destruct (is_substring "preset_overrides" s) eqn:Hpo; simpl; [| done].
  by rewrite (is_substring_append_l "preset" "_overrides" s Hpo) in Hp.
Qed.

End ResolverExtras.

Section ResolverExtrasRuns.
Import Sample.

Lemma resolver_falls_back_to_active_preset_witness :
  let po := VDict {[ "temperature" := VInt 0 ]} in
  let overrides := overrides_only_request po in
  let w := start busy in
  extract_preset_configuration_from_overrides overrides w =
    (inr (true, VTuple [VStr "gpt4"; po; VDict overrides],
          extracted overrides), w).
Proof.
  intros po overrides w.
  exact (resolver_falls_back_to_active_preset overrides
           {[ "preset_overrides" := po ]} po w eq_refl eq_refl eq_refl eq_refl).
Defined.

Lemma resolver_explicit_preset_captures_overrides_witness :
  let po := VDict {[ "temperature" := VInt 0 ]} in
  let extra : dict := {[ "preset_overrides" := po ]} in
  let overrides := preset_request (VStr "turbo") extra in
  (extract_preset_configuration_from_overrides overrides (start fresh)).1 =
    inr (true, VTuple [VStr "turbo"; po; VDict overrides], extracted overrides).
Proof.
  intros po extra overrides.
  exact (resolver_explicit_preset_captures_overrides overrides
           (<["preset" := VStr "turbo"]> extra) (VStr "turbo") (start fresh)
           eq_refl eq_refl eq_refl).
Defined.

Lemma resolver_fails_iff_witness :
  let overrides := overrides_only_request (VDict ∅) in
  let w := start fresh in
  (∃ payload msg,
     (extract_preset_configuration_from_overrides overrides w).1 =
       inr (false, payload, msg))
  ↔ is_Some (Some (VDict ∅)) ∧ truthy VNone = false.
Proof.
  intros overrides w.
  exact (resolver_fails_iff overrides {[ "preset_overrides" := VDict ∅ ]} w
           eq_refl).
Defined.

Lemma resolver_failure_shape_witness :
  let overrides := preset_request (VStr "") ∅ in
  "No active preset to override" = "No active preset to override"
  ∧ ∃ name, VTuple [VStr ""; VNone; VDict overrides] =
              VTuple [name; VNone; VDict overrides]
            ∧ truthy name = false.
Proof.
  intros overrides.
  exact (resolver_failure_shape overrides
           (VTuple [VStr ""; VNone; VDict overrides])
           "No active preset to override" (start fresh) (start fresh) eq_refl).
Defined.

Lemma resolver_success_shape_witness :
  let po := VDict {[ "temperature" := VInt 0 ]} in
  let overrides := overrides_only_request po in
  let w := start busy in
  extracted overrides = extracted overrides
  ∧ ∃ name po',
      VTuple [VStr "gpt4"; po; VDict overrides] =
        VTuple [name; po'; VDict overrides]
      ∧ ((name = VNone ∧ po' = VNone ∧ w = w) ∨ truthy name = true).
Proof.
  intros po overrides w.
  exact (resolver_success_shape overrides
           (VTuple [VStr "gpt4"; po; VDict overrides]) (extracted overrides)
           w w eq_refl).
Defined.

Lemma resolver_activates_before_failing_witness :
  let extra : dict := {[ "activate_preset" := VBool true ]} in
  let overrides := preset_request (VStr "") extra in
  let w := start busy in
  extract_preset_configuration_from_overrides overrides w =
    (inr (false, VTuple [VStr ""; VNone; VDict overrides],
          "No active preset to override"), activated (VStr "") w).
Proof.
  intros extra overrides w.
  exact (resolver_activates_before_failing overrides
           (<["preset" := VStr ""]> extra) (VStr "") (VBool true) w
           eq_refl eq_refl eq_refl eq_refl eq_refl).
Defined.

Lemma resolver_returns_on_mappings_witness :
  ∃ r, (extract_preset_configuration_from_overrides ∅ (start fresh)).1 = inr r.
Proof.
  exact (resolver_returns_on_mappings ∅ (start fresh) (or_introl eq_refl)).
Defined.

Lemma resolver_raises_on_scalar_witness :
  let overrides : dict := {[ "request_overrides" := VNone ]} in
  extract_preset_configuration_from_overrides overrides (start busy) =
    (inl TypeError, start busy).
Proof.
  intros overrides.
  exact (resolver_raises_on_scalar overrides VNone (start busy) eq_refl eq_refl).
Defined.

Lemma resolver_on_string_request_overrides_witness :
  let overrides : dict := {[ "request_overrides" := VStr "use preset turbo" ]} in
  extract_preset_configuration_from_overrides overrides (start busy) =
    (inl TypeError, start busy).
Proof.
  intros overrides.
  exact (resolver_on_string_request_overrides overrides "use preset turbo"
           (start busy) eq_refl).
Defined.

End ResolverExtrasRuns.

(** ** The setup on every template *)

Section SetupExtras.
Context `{Collaborators}.

(** What the setup can come back with, on any template at all. *)
Lemma setup_result_shape
    (template_name : string) (substitutions : option dict)
    (message : pyval) (template_overrides : dict) (w : World) :
  build_message_from_template template_name (or_empty substitutions) =
    (message, template_overrides) →
  match run_template_setup template_name substitutions w with
  | (inl e, _) => e = TypeError
  | (inr (true, payload, msg), _) =>
      payload = VTuple [message; VDict template_overrides]
      ∧ msg = setup_complete template_name
  | (inr (false, payload, msg), w') =>
      (msg = "No active preset to override"
       ∧ payload = VTuple [message; VNone; VDict template_overrides])
      ∨ (∃ preset_name preset_overrides b,
           truthy preset_name = true
           ∧ set_override_llm preset_name preset_overrides b =
               ((false, payload, msg), self w'))
  end.
Proof.
  intros Hbuild. unfold run_template_setup. run_monad. rewrite Hbuild.
  set (w1 := mkWorld (self w) _).
  pose proof (resolver_result_shape template_overrides w1) as Hshape.
  destruct (extract_preset_configuration_from_overrides template_overrides w1)
    as [[e|[[ok payload] msg]] w2]; cbn [fst snd] in Hshape.
  { by destruct Hshape. }
  destruct ok; cbn [negb].
  - destruct Hshape as (_ & name & po & -> & Hname). cbn [unpack3].
    destruct (truthy name) eqn:Htruthy; [| done].
    destruct (set_override_llm name po (self w2)) as [[[ok llm] msg'] b] eqn:Hllm.
    destruct ok; [done |]. right. by exists name, po, (self w2).
  - destruct Hshape as (-> & name & -> & _). by left.
Qed.

(** X10: a template whose overrides carry no preset configuration is set up
    without touching the backend: [set_override_llm] is not called, and the
    setup succeeds with the compiled message and the template's overrides. *)
Theorem setup_without_preset
    (template_name : string) (substitutions : option dict)
    (message : pyval) (template_overrides : dict) (w : World) :
  build_message_from_template template_name (or_empty substitutions) =
    (message, template_overrides) →
  nothing_to_resolve template_overrides →
  run_template_setup template_name substitutions w =
    (inr (true, VTuple [message; VDict template_overrides],
          setup_complete template_name),
     logged (CallBuildMessageFromTemplate template_name
               (or_empty substitutions)) w).
Proof.
  intros Hbuild Hnothing. unfold run_template_setup. run_monad.
  rewrite Hbuild. fold (logged (CallBuildMessageFromTemplate template_name
                                  (or_empty substitutions)) w).
  destruct Hnothing as [Hnone | (ro & Hro & Hp & Hpo)].
  - by rewrite resolver_no_request_overrides.
  - by rewrite (resolver_no_preset_keys template_overrides ro).
Qed.

(** X11: a template that names a truthy [preset] gets its override LLM built
    for that preset and the template's [preset_overrides] ([None] without the
    key), on the backend as the activation, if requested, left it.  On success
    the LLM handle is dropped and the setup returns the compiled message and
    the template's overrides; on failure the result of [set_override_llm] is
    returned and the activation is not undone. *)
Theorem setup_with_explicit_preset
    (template_name : string) (substitutions : option dict)
    (message : pyval) (template_overrides ro : dict) (p : pyval) (w : World) :
  build_message_from_template template_name (or_empty substitutions) =
    (message, template_overrides) →
  template_overrides !! "request_overrides" = Some (VDict ro) →
  ro !! "preset" = Some p →
  truthy p = true →
  let po := default VNone (ro !! "preset_overrides") in
  let w1 := logged (CallBuildMessageFromTemplate template_name
                      (or_empty substitutions)) w in
  let w2 := if activation_flag ro then activated p w1 else w1 in
  let out := set_override_llm p po (self w2) in
  run_template_setup template_name substitutions w =
    (inr (if out.1.1.1
          then (true, VTuple [message; VDict template_overrides],
                setup_complete template_name)
          else out.1),
     mkWorld out.2 (calls w2 ++ [CallSetOverrideLlm p po])).
Proof.
  intros Hbuild Hro Hp Htruthy po w1 w2 out.
  unfold run_template_setup. run_monad. rewrite Hbuild.
  fold (logged (CallBuildMessageFromTemplate template_name
                  (or_empty substitutions)) w). fold w1.
  rewrite (resolver_with_explicit_preset template_overrides ro p w1 Hro Hp).
  cbn zeta. rewrite Htruthy. fold po w2. cbn [negb unpack3]. rewrite Htruthy.
  subst out. destruct (set_override_llm p po (self w2)) as [[[ok llm] msg] b].
  by destruct ok.
Qed.

(** X12: a template with [preset_overrides] and no [preset] gets its override
    LLM built for the standing active preset with those overrides. *)
Theorem setup_with_active_preset
    (template_name : string) (substitutions : option dict)
    (message : pyval) (template_overrides ro : dict) (po : pyval) (w : World) :
  build_message_from_template template_name (or_empty substitutions) =
    (message, template_overrides) →
  template_overrides !! "request_overrides" = Some (VDict ro) →
  ro !! "preset" = None →
  ro !! "preset_overrides" = Some po →
  truthy (active_preset_name (self w)) = true →
  let w1 := logged (CallBuildMessageFromTemplate template_name
                      (or_empty substitutions)) w in
  let out := set_override_llm (active_preset_name (self w)) po (self w) in
  run_template_setup template_name substitutions w =
    (inr (if out.1.1.1
          then (true, VTuple [message; VDict template_overrides],
                setup_complete template_name)
          else out.1),
     mkWorld out.2
       (calls w1 ++ [CallSetOverrideLlm (active_preset_name (self w)) po])).
Proof.
  intros Hbuild Hro Hp Hpo Hactive w1 out.
  unfold run_template_setup. run_monad. rewrite Hbuild.
  fold (logged (CallBuildMessageFromTemplate template_name
                  (or_empty substitutions)) w). fold w1.
  rewrite (resolver_preset_overrides_only template_overrides ro po w1 Hro Hp Hpo).
  cbn zeta. subst w1 out. unfold logged. cbn [self calls]. rewrite Hactive.
  cbn [negb unpack3]. rewrite Hactive. cbn [self calls].
  destruct (set_override_llm (active_preset_name (self w)) po (self w))
    as [[[ok llm] msg] b].
  by destruct ok.
Qed.

(** X13: a successful setup always returns the pair of the compiled message
    and the template's own overrides, with the completion message: the
    resolver's findings and the LLM handle never show in it. *)
Theorem setup_success_shape
    (template_name : string) (substitutions : option dict)
    (message : pyval) (template_overrides : dict)
    (payload : pyval) (msg : string) (w w' : World) :
  build_message_from_template template_name (or_empty substitutions) =
    (message, template_overrides) →
  run_template_setup template_name substitutions w =
    (inr (true, payload, msg), w') →
  payload = VTuple [message; VDict template_overrides]
  ∧ msg = setup_complete template_name.
Proof.
  intros Hbuild Hsetup.
  pose proof (setup_result_shape template_name substitutions message
                template_overrides w Hbuild) as Hshape.
  by rewrite Hsetup in Hshape.
Qed.

(** X14: the setup fails for two reasons only: the resolver found no preset
    to override, or [set_override_llm] failed for a truthy preset name, in
    which case its payload and message are the ones returned. *)
Theorem setup_failure_shape
    (template_name : string) (substitutions : option dict)
    (message : pyval) (template_overrides : dict)
    (payload : pyval) (msg : string) (w w' : World) :
  build_message_from_template template_name (or_empty substitutions) =
    (message, template_overrides) →
  run_template_setup template_name substitutions w =
    (inr (false, payload, msg), w') →
  (msg = "No active preset to override"
   ∧ payload = VTuple [message; VNone; VDict template_overrides])
  ∨ (∃ preset_name preset_overrides b,
       truthy preset_name = true
       ∧ set_override_llm preset_name preset_overrides b =
           ((false, payload, msg), self w')).
Proof.
  intros Hbuild Hsetup.
  pose proof (setup_result_shape template_name substitutions message
                template_overrides w Hbuild) as Hshape.
  by rewrite Hsetup in Hshape.
Qed.

End SetupExtras.

(** ** The pipeline end to end *)

Section PipelineExtras.
Context `{Collaborators}.

(** After its first three steps [run_template] either stops where it is or
    merges the caller's overrides and asks, and does nothing else. *)
Lemma run_template_tail
    (template_name : string) (template_vars overrides : option dict) (w : World) :
  (run_template template_name template_vars overrides w).2 =
    after_setup template_name template_vars w
  ∨ ∃ message template_overrides,
      makes_calls (after_setup template_name template_vars w)
        (run_template template_name template_vars overrides w).2
        [CallMergeDicts template_overrides (or_empty overrides);
         CallAsk message (merge_dicts template_overrides (or_empty overrides))].
Proof.
  unfold run_template, after_setup, makes_calls, before_setup, logged.
  run_monad. cbn [self calls].
  destruct (get_template_variables_substitutions template_name)
    as [[ok response] msg0].
  destruct ok; cbn [negb]; [| by left].
  destruct (unpack3 response) as [e|[[t v] substitutions]]; [by left |].
  destruct substitutions as [ | | | | |substitutions| ];
    cbn [call_merge_dicts]; run_monad; try by left.
  cbn [self calls].
  destruct (run_template_setup template_name _ _)
    as [[e|[[ok payload] msg]] w']; cbn [snd]; [by left |].
  destruct ok; cbn [negb]; [| by left].
  destruct (unpack2 payload) as [e|[message template_overrides]]; [by left |].
  destruct template_overrides as [ | | | | |template_overrides| ];
    cbn [call_merge_dicts]; run_monad; try by left.
  right. exists message, template_overrides.
  unfold run_template_compiled. run_monad. rewrite or_empty_Some.
  cbn [self calls].
  destruct (_ask _ _ _) as [r b]. cbn [snd calls].
  by rewrite <- app_assoc.
Qed.

(** The first three steps never ask. *)
Lemma after_setup_calls
    (template_name : string) (template_vars : option dict) (w : World) :
  ∃ cs, makes_calls w (after_setup template_name template_vars w) cs
        ∧ existsb is_ask cs = false.
Proof.
  unfold after_setup, makes_calls.
  destruct (get_template_variables_substitutions template_name)
    as [[ok response] msg0].
  destruct ok; [| by eexists [_]].
  destruct (unpack3 response) as [e|[[t v] substitutions]]; [by eexists [_] |].
  destruct substitutions as [ | | | | |substitutions| ]; try by eexists [_].
  destruct (run_template_setup_calls template_name
              (Some (merge_dicts substitutions (or_empty template_vars)))
              (before_setup template_name substitutions template_vars w))
    as (cs & Hcs & Hquiet).
  unfold makes_calls in Hcs. rewrite or_empty_Some in Hcs.
  eexists ([_; _; _] ++ cs)%list. split.
  - rewrite Hcs. unfold before_setup, logged. cbn [calls].
    rewrite <- !app_assoc. reflexivity.
  - cbn [app existsb is_ask orb].
    clear Hcs. induction cs as [|c cs IH]; [done |].
    cbn [existsb] in *. apply orb_false_elim in Hquiet as [Hc Hcs].
    rewrite (IH Hcs). by destruct c.
Qed.

(** X15: once the setup has succeeded nothing stands between it and the
    dispatch: [run_template] records the merge of the caller's overrides,
    calls [_ask] with the compiled message on the backend the setup left, and
    returns what [_ask] returns. *)
Theorem run_template_dispatches_after_setup
    (template_name : string) (template_vars overrides : option dict)
    (t v : pyval) (substitutions : dict) (msg0 : string)
    (message : pyval) (template_overrides : dict)
    (payload : pyval) (msg : string) (w w' : World) :
  get_template_variables_substitutions template_name =
    (true, VTuple [t; v; VDict substitutions], msg0) →
  build_message_from_template template_name
      (merge_dicts substitutions (or_empty template_vars)) =
    (message, template_overrides) →
  run_template_setup template_name
      (Some (merge_dicts substitutions (or_empty template_vars)))
      (before_setup template_name substitutions template_vars w) =
    (inr (true, payload, msg), w') →
  let kwargs := merge_dicts template_overrides (or_empty overrides) in
  let out := _ask message kwargs (self w') in
  run_template template_name template_vars overrides w =
    (inr out.1,
     mkWorld out.2
       (calls w' ++ [CallMergeDicts template_overrides (or_empty overrides);
                     CallAsk message kwargs])).
Proof.
  intros Hget Hbuild Hsetup kwargs out.
  rewrite <- (or_empty_Some (merge_dicts _ _)) in Hbuild.
  pose proof (setup_result_shape _ _ _ _
                (before_setup template_name substitutions template_vars w)
                Hbuild) as Hshape.
  rewrite Hsetup in Hshape. destruct Hshape as [-> ->].
  rewrite (run_template_success_path _ _ _ _ _ _ _ _ _ _ _ _ Hget Hsetup).
  unfold run_template_compiled, logged. run_monad. rewrite or_empty_Some.
  cbn [self calls]. subst out kwargs.
  destruct (_ask message _ (self w')) as [r b]. cbn [fst snd].
  by rewrite <- app_assoc.
Qed.

(** X16: a template without preset configuration runs in five calls, in this
    order: fetch the template variables, merge the caller's variables, compile
    the template, merge the caller's overrides, ask.  The backend reaches
    [_ask] untouched and the result of [_ask] is the result of the run. *)
Theorem run_template_without_preset
    (template_name : string) (template_vars overrides : option dict)
    (t v : pyval) (substitutions : dict) (msg0 : string)
    (message : pyval) (template_overrides : dict) (w : World) :
  get_template_variables_substitutions template_name =
    (true, VTuple [t; v; VDict substitutions], msg0) →
  build_message_from_template template_name
      (merge_dicts substitutions (or_empty template_vars)) =
    (message, template_overrides) →
  nothing_to_resolve template_overrides →
  let merged := merge_dicts substitutions (or_empty template_vars) in
  let kwargs := merge_dicts template_overrides (or_empty overrides) in
  let out := _ask message kwargs (self w) in
  run_template template_name template_vars overrides w =
    (inr out.1,
     mkWorld out.2
       (calls w ++ [CallGetTemplateVariablesSubstitutions template_name;
                    CallMergeDicts substitutions (or_empty template_vars);
                    CallBuildMessageFromTemplate template_name merged;
                    CallMergeDicts template_overrides (or_empty overrides);
                    CallAsk message kwargs])).
Proof.
  intros Hget Hbuild Hnothing merged kwargs out.
  assert (run_template_setup template_name (Some merged)
            (before_setup template_name substitutions template_vars w) =
          (inr (true, VTuple [message; VDict template_overrides],
                setup_complete template_name),
           logged (CallBuildMessageFromTemplate template_name merged)
             (before_setup template_name substitutions template_vars w)))
    as Hsetup.
  { unfold run_template_setup. run_monad. rewrite or_empty_Some.
    subst merged. rewrite Hbuild. unfold logged at 1.
    destruct Hnothing as [Hnone | (ro & Hro & Hp & Hpo)].
    - by rewrite resolver_no_request_overrides.
    - by rewrite (resolver_no_preset_keys template_overrides ro). }
  rewrite (run_template_success_path _ _ _ _ _ _ _ _ _ _ _ _ Hget Hsetup).
  unfold run_template_compiled, before_setup, logged. run_monad.
  rewrite or_empty_Some. cbn [self calls]. subst out kwargs.
  destruct (_ask message _ (self w)) as [r b]. cbn [fst snd].
  by rewrite <- !app_assoc.
Qed.

(** X17: an activation is not undone by a later failure.  When the template
    names a preset with a truthy [activate_preset] flag and
    [set_override_llm] then fails, [run_template] returns that failure, has
    not asked, and leaves the backend as [set_override_llm] left it after the
    activation. *)
Theorem run_template_keeps_activation_on_failure
    (template_name : string) (template_vars overrides : option dict)
    (t v : pyval) (substitutions : dict) (msg0 : string)
    (message : pyval) (template_overrides ro : dict) (p flag llm : pyval)
    (msg : string) (b : Backend) (w : World) :
  get_template_variables_substitutions template_name =
    (true, VTuple [t; v; VDict substitutions], msg0) →
  build_message_from_template template_name
      (merge_dicts substitutions (or_empty template_vars)) =
    (message, template_overrides) →
  template_overrides !! "request_overrides" = Some (VDict ro) →
  ro !! "preset" = Some p →
  truthy p = true →
  ro !! "activate_preset" = Some flag →
  truthy flag = true →
  set_override_llm p (default VNone (ro !! "preset_overrides"))
      (activate_preset p (self w)) =
    ((false, llm, msg), b) →
  run_template template_name template_vars overrides w =
    (inr (false, llm, msg),
     mkWorld b
       (calls w ++ [CallGetTemplateVariablesSubstitutions template_name;
                    CallMergeDicts substitutions (or_empty template_vars);
                    CallBuildMessageFromTemplate template_name
                      (merge_dicts substitutions (or_empty template_vars));
                    CallActivatePreset p;
                    CallSetOverrideLlm p
                      (default VNone (ro !! "preset_overrides"))])).
Proof.
  intros Hget Hbuild Hro Hp Htruthy Hflag Hflagtruthy Hllm.
  set (merged := merge_dicts substitutions (or_empty template_vars)) in *.
  set (w0 := before_setup template_name substitutions template_vars w).
  set (w1 := logged (CallBuildMessageFromTemplate template_name merged) w0).
  rewrite <- (or_empty_Some merged) in Hbuild.
  assert (extract_preset_configuration_from_overrides template_overrides
            (logged (CallBuildMessageFromTemplate template_name
                       (or_empty (Some merged))) w0) =
          (inr (true,
                VTuple [p; default VNone (ro !! "preset_overrides");
                        VDict template_overrides],
                extracted template_overrides), activated p w1)) as Hres.
  { rewrite or_empty_Some. fold w1.
    rewrite (resolver_with_explicit_preset template_overrides ro p w1 Hro Hp).
    unfold activation_flag. cbn zeta. by rewrite Htruthy, Hflag, Hflagtruthy. }
  rewrite (run_template_setup_failure template_name template_vars overrides
             t v substitutions msg0 llm msg w
             (mkWorld b (calls (activated p w1) ++
                [CallSetOverrideLlm p (default VNone (ro !! "preset_overrides"))]))
             Hget).
  - unfold activated, w1, w0, before_setup, logged. cbn [self calls].
    by rewrite <- !app_assoc.
  - apply (run_template_setup_llm_failure template_name (Some merged) message
             template_overrides p (default VNone (ro !! "preset_overrides"))
             (VDict template_overrides) llm (extracted template_overrides) msg
             b w0 (activated p w1) Hbuild Hres Htruthy).
    exact Hllm.
Qed.

(** X18: the caller's overrides are merged, never resolved.  Apart from the
    merges and the ask, [run_template] makes the same calls whatever overrides
    the caller passes; a preset named by the caller is neither activated nor
    loaded by the pipeline. *)
Theorem run_template_ignores_caller_overrides_in_setup
    (template_name : string) (template_vars overrides1 overrides2 : option dict)
    (w : World) :
  List.filter (λ c, negb (is_merge_or_ask c))
      (calls (run_template template_name template_vars overrides1 w).2) =
    List.filter (λ c, negb (is_merge_or_ask c))
      (calls (run_template template_name template_vars overrides2 w).2).
Proof.
  assert (∀ overrides,
            List.filter (λ c, negb (is_merge_or_ask c))
              (calls (run_template template_name template_vars overrides w).2) =
            List.filter (λ c, negb (is_merge_or_ask c))
              (calls (after_setup template_name template_vars w))) as Hsame.
  { intros overrides.
    destruct (run_template_tail template_name template_vars overrides w)
      as [-> | (message & template_overrides & ->)]; [done |].
    rewrite List.filter_app. cbn. by rewrite app_nil_r. }
  by rewrite !Hsame.
Qed.

(** X19: [run_template] asks at most once, and when it asks, the ask is its
    last call. *)
Theorem run_template_asks_once_at_the_end
    (template_name : string) (template_vars overrides : option dict) (w : World) :
  ∃ cs,
    existsb is_ask cs = false
    ∧ (makes_calls w (run_template template_name template_vars overrides w).2 cs
       ∨ ∃ message kwargs,
           makes_calls w
             (run_template template_name template_vars overrides w).2
             (cs ++ [CallAsk message kwargs])).
Proof.
  destruct (after_setup_calls template_name template_vars w)
    as (cs & Hcs & Hquiet).
  unfold makes_calls in *.
  destruct (run_template_tail template_name template_vars overrides w)
    as [-> | (message & template_overrides & Htail)].
  - exists cs. auto.
  - exists (cs ++ [CallMergeDicts template_overrides (or_empty overrides)])%list.
    split.
    + rewrite existsb_app, Hquiet. reflexivity.
    + right. eexists _, _. unfold makes_calls in Htail.
      rewrite Htail, Hcs, <- !app_assoc. reflexivity.
Qed.

(** X20: when the template manager reports success with a tuple that does
    not have exactly three items, the unpacking raises [ValueError] and the
    run ends right after the fetch: nothing is compiled and nothing is
    asked. *)
Theorem run_template_raises_on_malformed_fetch
    (template_name : string) (template_vars overrides : option dict)
    (items : list pyval) (msg0 : string) (w : World) :
  get_template_variables_substitutions template_name =
    (true, VTuple items, msg0) →
  length items ≠ 3 →
  run_template template_name template_vars overrides w =
    (inl ValueError,
     logged (CallGetTemplateVariablesSubstitutions template_name) w).
Proof.
  intros Hget Hlen. unfold run_template. run_monad. rewrite Hget.
  cbn [negb].
  destruct items as [|a [|b [|c [|d items]]]]; try reflexivity.
  by destruct Hlen.
Qed.

End PipelineExtras.

(** ** Streaming cancellation *)

(** X21: after [terminate_stream] the streaming flag is falsy, whatever it
    was before.  Nothing else changes, no call is made, and a flag that was
    already falsy is left exactly as it was. *)
Theorem terminate_stream_stops_streaming (_signal _frame : pyval) (w : World) :
  ∃ w',
    terminate_stream _signal _frame w = (inr (), w')
    ∧ truthy (streaming (self w')) = false
    ∧ set_streaming (streaming (self w)) (self w') = self w
    ∧ calls w' = calls w
    ∧ (truthy (streaming (self w)) = false → w' = w).
Proof.
  destruct w as [b cs]. unfold terminate_stream, update. run_monad.
  cbn [self calls].
  destruct (truthy (streaming b)) eqn:Hflag; eexists; split; try reflexivity;
    cbn [self calls]; destruct b; cbn in *; auto; done.
Qed.

(** X22: starting a new conversation and cancelling a stream do not
    interfere: in either order they leave the same backend. *)
Theorem new_conversation_terminate_stream_commute
    (_signal _frame : pyval) (w : World) :
  (new_conversation ;; terminate_stream _signal _frame) w =
    (terminate_stream _signal _frame ;; new_conversation) w.
Proof.
  destruct w as [b cs]. unfold new_conversation, terminate_stream, update.
  run_monad. cbn [self calls]. destruct b as [? ? ? ? ? ? ? flag ? ? ?].
  cbn [streaming set_message_clipboard set_conversation_title_set
         set_conversation_title set_conversation_id self calls
         conversation_id conversation_title conversation_title_set stream
         provider_name provider message_clipboard model available_models
         active_preset_name].
  by destruct (truthy flag).
Qed.

Section SetupExtrasRuns.
Import Sample.

Lemma setup_without_preset_witness :
  run_template_setup "greet" None (start busy) =
    (inr (true, VTuple [VStr "Hello"; VDict ∅], setup_complete "greet"),
     logged (CallBuildMessageFromTemplate "greet" ∅) (start busy)).
Proof.
  exact (setup_without_preset "greet" None (VStr "Hello") ∅ (start busy)
           eq_refl (or_introl eq_refl)).
Defined.

Lemma setup_with_explicit_preset_witness :
  run_template_setup "pinned" None (start busy) =
    (inr (false, VNone, "preset not found"),
     logged (CallSetOverrideLlm (VStr "gone") VNone)
       (logged (CallBuildMessageFromTemplate "pinned" ∅) (start busy))).
Proof.
  exact (setup_with_explicit_preset "pinned" None (VStr "Hello")
           pinned_overrides {[ "preset" := VStr "gone" ]} (VStr "gone")
           (start busy) eq_refl eq_refl eq_refl eq_refl).
Defined.

Lemma setup_with_active_preset_witness :
  let po := VDict {[ "temperature" := VInt 0 ]} in
  run_template_setup "tuned" None (start busy) =
    (inr (true, VTuple [VStr "Hello"; VDict tuned_overrides],
          setup_complete "tuned"),
     logged (CallSetOverrideLlm (VStr "gpt4") po)
       (logged (CallBuildMessageFromTemplate "tuned" ∅) (start busy))).
Proof.
  intros po.
  exact (setup_with_active_preset "tuned" None (VStr "Hello") tuned_overrides
           {[ "preset_overrides" := po ]} po (start busy)
           eq_refl eq_refl eq_refl eq_refl eq_refl).
Defined.

Lemma setup_success_shape_witness :
  VTuple [VStr "Hello"; VDict tuned_overrides] =
    VTuple [VStr "Hello"; VDict tuned_overrides]
  ∧ setup_complete "tuned" = setup_complete "tuned".
Proof.
  exact (setup_success_shape "tuned" None (VStr "Hello") tuned_overrides
           (VTuple [VStr "Hello"; VDict tuned_overrides])
           (setup_complete "tuned") (start busy)
           (logged (CallSetOverrideLlm (VStr "gpt4")
                      (VDict {[ "temperature" := VInt 0 ]}))
              (logged (CallBuildMessageFromTemplate "tuned" ∅) (start busy)))
           eq_refl eq_refl).
Defined.

Lemma setup_failure_shape_witness :
  let w' := logged (CallSetOverrideLlm (VStr "gone") VNone)
              (logged (CallBuildMessageFromTemplate "pinned" ∅) (start busy)) in
  ("preset not found" = "No active preset to override"
   ∧ VNone = VTuple [VStr "Hello"; VNone; VDict pinned_overrides])
  ∨ (∃ preset_name preset_overrides b,
       truthy preset_name = true
       ∧ set_override_llm preset_name preset_overrides b =
           ((false, VNone, "preset not found"), self w')).
Proof.
  intros w'.
  exact (setup_failure_shape "pinned" None (VStr "Hello") pinned_overrides
           VNone "preset not found" (start busy) w' eq_refl eq_refl).
Defined.

Lemma run_template_dispatches_after_setup_witness :
  let po := VDict {[ "temperature" := VInt 0 ]} in
  let w' := logged (CallSetOverrideLlm (VStr "gpt4") po)
              (logged (CallBuildMessageFromTemplate "tuned" ∅)
                 (before_setup "tuned" ∅ None (start busy))) in
  run_template "tuned" None None (start busy) =
    (inr (true, VStr "Hello", "asked or streamed"),
     mkWorld (set_message_clipboard (VStr "Hello") busy)
       (calls w' ++ [CallMergeDicts tuned_overrides ∅;
                     CallAsk (VStr "Hello") tuned_overrides])).
Proof.
  intros po w'.
  exact (run_template_dispatches_after_setup "tuned" None None (VObj 1)
           (VTuple [VStr "name"]) ∅ "template loaded" (VStr "Hello")
           tuned_overrides (VTuple [VStr "Hello"; VDict tuned_overrides])
           (setup_complete "tuned") (start busy) w' eq_refl eq_refl eq_refl).
Defined.

Lemma run_template_without_preset_witness :
  let name : dict := {[ "name" := VStr "Ada" ]} in
  run_template "greet" (Some name) None (start fresh) =
    (inr (true, VStr "Hello, Ada", "asked or streamed"),
     mkWorld (set_message_clipboard (VStr "Hello, Ada") fresh)
       [CallGetTemplateVariablesSubstitutions "greet";
        CallMergeDicts ∅ name;
        CallBuildMessageFromTemplate "greet" name;
        CallMergeDicts ∅ ∅;
        CallAsk (VStr "Hello, Ada") ∅]).
Proof.
  intros name.
  exact (run_template_without_preset "greet" (Some name) None (VObj 1)
           (VTuple [VStr "name"]) ∅ "template loaded" (VStr "Hello, Ada") ∅
           (start fresh) eq_refl eq_refl (or_introl eq_refl)).
Defined.

End SetupExtrasRuns.

Section FaultyRuns.
Import Faulty.

Lemma run_template_keeps_activation_on_failure_witness :
  run_template "switch" None None (Sample.start Sample.busy) =
    (inr (false, VNone, "preset not found"),
     mkWorld (set_active_preset_name (VStr "gone") Sample.busy)
       [CallGetTemplateVariablesSubstitutions "switch";
        CallMergeDicts ∅ ∅;
        CallBuildMessageFromTemplate "switch" ∅;
        CallActivatePreset (VStr "gone");
        CallSetOverrideLlm (VStr "gone") VNone]).
Proof.
  exact (run_template_keeps_activation_on_failure "switch" None None (VObj 1)
           (VTuple [VStr "name"]) ∅ "template loaded" (VStr "Hello")
           switch_overrides
           {[ "preset" := VStr "gone"; "activate_preset" := VBool true ]}
           (VStr "gone") (VBool true) VNone "preset not found"
           (set_active_preset_name (VStr "gone") Sample.busy)
           (Sample.start Sample.busy)
           eq_refl eq_refl eq_refl eq_refl eq_refl eq_refl eq_refl eq_refl).
Defined.

Lemma run_template_raises_on_malformed_fetch_witness :
  run_template "broken" None None (Sample.start Sample.fresh) =
    (inl ValueError,
     logged (CallGetTemplateVariablesSubstitutions "broken")
       (Sample.start Sample.fresh)).
Proof.
  refine (run_template_raises_on_malformed_fetch "broken" None None
            [VObj 1; VDict ∅] "template loaded" (Sample.start Sample.fresh)
            eq_refl _).
  discriminate.
Defined.

End FaultyRuns.

Section StreamingRuns.
Import Sample.

Lemma terminate_stream_stops_streaming_witness :
  ∃ w',
    terminate_stream (VInt 2) VNone (start busy) = (inr (), w')
    ∧ truthy (streaming (self w')) = false
    ∧ set_streaming (streaming (self (start busy))) (self w') = self (start busy)
    ∧ calls w' = calls (start busy)
    ∧ (truthy (streaming (self (start busy))) = false → w' = start busy).
Proof.
  exact (terminate_stream_stops_streaming (VInt 2) VNone (start busy)).
Defined.

End StreamingRuns.
